(** * Fake-news detection bot ([src/bot.py]): a shallow embedding

    The development follows the source file function by function:
    [call_ollama], [parse_response], [analyze] and [fallback_analyze].

    Data model.
    - A Python [str] is a Rocq [string].  A Rocq character is one of 256
      values, so the embedding covers texts whose code points are below 256;
      on that range [PyStr.lower], [PyRe.is_digit] and [PyRe.is_space] are
      exactly Python's [str.lower], [\d] and [\s].
    - A Python [float] is a primitive binary64 [float]; the arithmetic of the
      source ([/], [+], [*], [min]) is the IEEE arithmetic of [PrimFloat].
    - A Python [int] is a [Z].
    - The verdict dictionary [{"is_fake": ..., "confidence": ...}] is the
      record [verdict].
    - The value [response.json()] decodes is a [json]: any JSON value, so
      that [call_ollama] returns what the member [response] holds, text or
      not, as the source does.
    - The HTTP exchange of [call_ollama] is an event of a small free monad
      [prog]; [try]/[except] is [try_except]; an environment answers the
      requests when a program is [run]. *)

From Stdlib Require Import Bool Arith ZArith Lia List.
From Stdlib Require Import Strings.Ascii Strings.String.
From Stdlib Require Import Floats.PrimFloat Numbers.Cyclic.Int63.Uint63.
Import ListNotations.

Set Warnings "-inexact-float,-register-all".

Open Scope string_scope.

(** ** Python strings *)

Module PyStr.

(** [str.lower] on one character: the upper-case letters below code point
    256 are A-Z, and the Latin-1 letters 192-214 and 216-222; each is 32
    below its lower-case form. *)
Definition lower_char (c : ascii) : ascii :=
  let n := nat_of_ascii c in
  if (((65 <=? n) && (n <=? 90))
      || ((192 <=? n) && (n <=? 214))
      || ((216 <=? n) && (n <=? 222)))%nat
  then ascii_of_nat (n + 32)
  else c.

(** [s.lower()] *)
Fixpoint lower (s : string) : string :=
  match s with
  | EmptyString => EmptyString
  | String c s' => String (lower_char c) (lower s')
  end.

(** [s.startswith(p)] *)
Fixpoint startswith (p s : string) : bool :=
  match p with
  | EmptyString => true
  | String a p' =>
      match s with
      | EmptyString => false
      | String b s' => Ascii.eqb a b && startswith p' s'
      end
  end.

(** [sub in s] *)
Fixpoint contains (sub s : string) : bool :=
  startswith sub s
  || match s with
     | EmptyString => false
     | String _ s' => contains sub s'
     end.

(** [s[n:]] for [n >= 0] *)
Fixpoint drop (n : nat) (s : string) : string :=
  match n with
  | O => s
  | S n' =>
      match s with
      | EmptyString => EmptyString
      | String _ s' => drop n' s'
      end
  end.

(** [s[:n]] for [n >= 0] *)
Fixpoint take (n : nat) (s : string) : string :=
  match n with
  | O => EmptyString
  | S n' =>
      match s with
      | EmptyString => EmptyString
      | String c s' => String c (take n' s')
      end
  end.

(** [s.count(sub)]: the number of non-overlapping occurrences, found from
    left to right.  After a hit the scan resumes behind the occurrence;
    [skip] is the number of characters still to be jumped over. *)
Fixpoint count_from (sub : string) (skip : nat) (s : string) : Z :=
  match s with
  | EmptyString =>
      match skip with
      | O => if startswith sub EmptyString then 1%Z else 0%Z
      | S _ => 0%Z
      end
  | String _ s' =>
      match skip with
      | S k => count_from sub k s'
      | O =>
          if startswith sub s
          then (1 + count_from sub (String.length sub - 1) s')%Z
          else count_from sub 0 s'
      end
  end.

Definition count (s sub : string) : Z := count_from sub 0 s.

(** [not s]: the empty string is the only falsy [str]. *)
Definition is_falsy (s : string) : bool :=
  match s with
  | EmptyString => true
  | String _ _ => false
  end.

End PyStr.

(** ** Python floats *)

Module PyFloat.

(** [float(n)] for a small non-negative [int] (exact below 2^53). *)
Definition of_int (n : Z) : float := PrimFloat.of_uint63 (Uint63.of_Z n).

(** [min(a, b)]: the builtin keeps its first argument unless the second is
    strictly smaller. *)
Definition min (a b : float) : float :=
  if PrimFloat.ltb b a then b else a.

(** [lo <= x <= hi] *)
Definition between (lo hi x : float) : bool :=
  PrimFloat.leb lo x && PrimFloat.leb x hi.

End PyFloat.

(** ** The regular expression of [parse_response]

    [re.search(r'(\d{1,3})%?\s*(confident|confidence|certain)', text)],
    as a backtracking matcher that returns group 1 of the first match. *)

Module PyRe.

(** [\d] *)
Definition is_digit (c : ascii) : bool :=
  let n := nat_of_ascii c in ((48 <=? n) && (n <=? 57))%nat.

(** [\s] *)
Definition is_space (c : ascii) : bool :=
  let n := nat_of_ascii c in
  (((9 <=? n) && (n <=? 13)) || ((28 <=? n) && (n <=? 32))
   || (n =? 133) || (n =? 160))%nat.

(** Exactly [k] characters of class [\d]: the digits and the rest. *)
Fixpoint digits (k : nat) (s : string) : option (string * string) :=
  match k with
  | O => Some (EmptyString, s)
  | S k' =>
      match s with
      | EmptyString => None
      | String c s' =>
          if is_digit c
          then match digits k' s' with
               | Some (d, r) => Some (String c d, r)
               | None => None
               end
          else None
      end
  end.

(** [a or b] on match results *)
Definition orelse {A : Type} (a b : option A) : option A :=
  match a with
  | Some x => Some x
  | None => b
  end.

(** [%?], greedy: with the sign first, then without. *)
Definition opt_percent {A : Type} (s : string) (k : string -> option A)
  : option A :=
  match s with
  | EmptyString => k s
  | String c s' =>
      if Ascii.eqb c "%" then orelse (k s') (k s) else k s
  end.

(** [\s*], greedy: the longest run first, then shorter ones. *)
Fixpoint spaces {A : Type} (s : string) (k : string -> option A)
  : option A :=
  match s with
  | EmptyString => k s
  | String c s' => if is_space c then orelse (spaces s' k) (k s) else k s
  end.

(** [(confident|confidence|certain)] *)
Definition keyword (s : string) : bool :=
  PyStr.startswith "confident" s
  || PyStr.startswith "confidence" s
  || PyStr.startswith "certain" s.

(** What follows the digits: [%?\s*(confident|confidence|certain)]. *)
Definition tail_matches (d r : string) : option string :=
  opt_percent r (fun r1 =>
    spaces r1 (fun r2 => if keyword r2 then Some d else None)).

(** A match with exactly [k] digits at the head of [s]. *)
Definition match_digits (k : nat) (s : string) : option string :=
  match digits k s with
  | Some (d, r) => tail_matches d r
  | None => None
  end.

(** A match at the head of [s]; [\d{1,3}] is greedy. *)
Definition match_at (s : string) : option string :=
  orelse (match_digits 3 s) (orelse (match_digits 2 s) (match_digits 1 s)).

(** [re.search]: the leftmost position with a match; the result is
    [group(1)]. *)
Fixpoint search (s : string) : option string :=
  orelse (match_at s)
    match s with
    | EmptyString => None
    | String _ s' => search s'
    end.

(** [int(d)] for a string of digits. *)
Definition digit_val (c : ascii) : Z := Z.of_nat (nat_of_ascii c) - 48.

Fixpoint int_acc (acc : Z) (d : string) : Z :=
  match d with
  | EmptyString => acc
  | String c d' => int_acc (10 * acc + digit_val c) d'
  end.

Definition int (d : string) : Z := int_acc 0 d.

End PyRe.

(** ** Effects: exceptions, the HTTP exchange, standard output *)

Module Effects.

(** The exceptions the calls of [call_ollama] raise; each is a subclass of
    [Exception]. *)
Inductive exn : Type :=
| ConnectionError
| Timeout
| HTTPError (status : Z)
| JSONDecodeError
| AttributeError.

(** The JSON body of [requests.post]. *)
Record request : Type := {
  url : string;
  model : string;
  prompt : string;
  stream : bool;
  temperature : float;
  num_predict : Z;
  timeout : Z
}.

(** The Python value [response.json()] decodes a body to: [None], a [bool],
    an [int], a [float], a [str], a [list] or a [dict] with text keys, whose
    entries are listed with one entry for each key. *)
Inductive json : Type :=
| JNull
| JBool (b : bool)
| JInt (n : Z)
| JFloat (x : float)
| JStr (s : string)
| JList (items : list json)
| JDict (entries : list (string * json)).

(** The value a dictionary holds for [key]. *)
Fixpoint dict_get (key : string) (entries : list (string * json))
  : option json :=
  match entries with
  | [] => None
  | (k, v) :: rest => if String.eqb k key then Some v else dict_get key rest
  end.

(** The truth value of a Python value, as [not] and [if] take it: [None],
    [False], zero, the empty string, the empty list and the empty dictionary
    are false. *)
Definition truthy (v : json) : bool :=
  match v with
  | JNull => false
  | JBool b => b
  | JInt n => negb (n =? 0)%Z
  | JFloat x => negb (PrimFloat.eqb x 0)
  | JStr s => negb (PyStr.is_falsy s)
  | JList items => match items with [] => false | _ :: _ => true end
  | JDict entries => match entries with [] => false | _ :: _ => true end
  end.

(** An HTTP response: its status and its body, [None] when the body is no
    JSON text. *)
Record response : Type := {
  status_code : Z;
  body : option json
}.

(** What one call of [requests.post] comes back with. *)
Inductive reply : Type :=
| Raised (e : exn)
| Replied (r : response).

(** Programs: return, raise, one [requests.post], one [print]. *)
Inductive prog (A : Type) : Type :=
| Ret (a : A)
| Raise (e : exn)
| Post (rq : request) (k : reply -> prog A)
| Print (e : exn) (k : prog A).

Arguments Ret {A} a.
Arguments Raise {A} e.
Arguments Post {A} rq k.
Arguments Print {A} e k.

Fixpoint bind {A B : Type} (p : prog A) (f : A -> prog B) : prog B :=
  match p with
  | Ret a => f a
  | Raise e => Raise e
  | Post rq k => Post rq (fun rep => bind (k rep) f)
  | Print e k => Print e (bind k f)
  end.

(** [try: p  except Exception as e: h e] *)
Fixpoint try_except {A : Type} (p : prog A) (h : exn -> prog A) : prog A :=
  match p with
  | Ret a => Ret a
  | Raise e => h e
  | Post rq k => Post rq (fun rep => try_except (k rep) h)
  | Print e k => Print e (try_except k h)
  end.

(** [requests.post(...)] *)
Definition requests_post (rq : request) : prog response :=
  Post rq (fun rep =>
    match rep with
    | Raised e => Raise e
    | Replied r => Ret r
    end).

(** [response.raise_for_status()]: [HTTPError] for the client and server
    error statuses, 400 to 599. *)
Definition raise_for_status (r : response) : prog unit :=
  if ((400 <=? status_code r) && (status_code r <? 600))%Z
  then Raise (HTTPError (status_code r))
  else Ret tt.

(** [response.json()] *)
Definition response_json (r : response) : prog json :=
  match body r with
  | None => Raise JSONDecodeError
  | Some j => Ret j
  end.

(** [j.get("response", default)]: the member as it is, whatever its type,
    or the default; only a dictionary has [get]. *)
Definition get_response (j : json) (default : json) : prog json :=
  match j with
  | JDict entries =>
      match dict_get "response" entries with
      | Some v => Ret v
      | None => Ret default
      end
  | _ => Raise AttributeError
  end.

(** The environment: the reply to the [n]-th request of a run. *)
Definition server : Type := nat -> request -> reply.

(** What a run leaves behind: the value or the exception that escapes, the
    requests sent and the errors printed, in order. *)
Record outcome (A : Type) : Type := {
  result : A + exn;
  requests : list request;
  printed : list exn
}.

Arguments result {A} o.
Arguments requests {A} o.
Arguments printed {A} o.

Fixpoint run {A : Type} (p : prog A) (srv : server) (n : nat) : outcome A :=
  match p with
  | Ret a => {| result := inl a; requests := []; printed := [] |}
  | Raise e => {| result := inr e; requests := []; printed := [] |}
  | Post rq k =>
      let o := run (k (srv n rq)) srv (S n) in
      {| result := result o;
         requests := rq :: requests o;
         printed := printed o |}
  | Print e k =>
      let o := run k srv n in
      {| result := result o;
         requests := requests o;
         printed := e :: printed o |}
  end.

End Effects.

(** ** The bot *)

Module Bot.

Import PyStr Effects.

Notation "x <- p ;; q" := (bind p (fun x => q))
  (at level 61, p at next level, right associativity).

Definition OLLAMA_URL : string := "http://ollama:11434".
Definition OLLAMA_MODEL : string := "llama3.2".

(** The output of [parse_response], [analyze] and [fallback_analyze]. *)
Record verdict : Type := {
  is_fake : bool;
  confidence : float
}.

Definition ollama_request (prompt : string) : request :=
  {| url := OLLAMA_URL ++ "/api/generate";
     model := OLLAMA_MODEL;
     prompt := prompt;
     stream := false;
     temperature := 0.1;
     num_predict := 150;
     timeout := 25 |}.

(** The annotation says [-> str]; the value returned is the member
    [response] of the reply, which is a [str] only when the service sent
    one. *)
Definition call_ollama (prompt : string) : prog json :=
  try_except
    (response <- requests_post (ollama_request prompt) ;;
     _ <- raise_for_status response ;;
     j <- response_json response ;;
     get_response j (JStr ""))
    (fun e => Print e (Ret (JStr ""))).

(** [n / m] on small non-negative integers. *)
Definition true_div (n m : Z) : float :=
  PrimFloat.div (PyFloat.of_int n) (PyFloat.of_int m).

Definition parse_response (response : string) : verdict :=
  let response_lower := lower response in
  let is_fake :=
    if contains "verdict: fake" response_lower
       || contains "classification: fake" response_lower
    then true
    else if contains "verdict: real" response_lower
            || contains "classification: real" response_lower
    then false
    else if contains "this is fake" response_lower
            || contains "appears to be fake" response_lower
    then true
    else if contains "this is real" response_lower
            || contains "appears to be real" response_lower
            || contains "legitimate" response_lower
    then false
    else
      let fake_count :=
        (count response_lower "fake"
         + count response_lower "misinformation"
         + count response_lower "false")%Z in
      let real_count :=
        (count response_lower "real"
         + count response_lower "legitimate"
         + count response_lower "credible")%Z in
      (real_count <? fake_count)%Z
  in
  let confidence :=
    match PyRe.search response_lower with
    | Some group1 => PyFloat.min (true_div (PyRe.int group1) 100) 1
    | None =>
        if contains "highly likely" response_lower
           || contains "very confident" response_lower
        then 0.9%float
        else if contains "likely" response_lower
                || contains "probably" response_lower
        then 0.75%float
        else if contains "possibly" response_lower
                || contains "might be" response_lower
        then 0.6%float
        else if contains "uncertain" response_lower
        then 0.5%float
        else 0.75%float
    end
  in
  {| is_fake := is_fake; confidence := confidence |}.

Definition fake_keywords : list string :=
  ["shocking"; "unbelievable"; "miracle"; "secret"; "conspiracy"].

(** [sum(1 for k in keywords if k in text)] *)
Definition sum_ones (keywords : list string) (text : string) : Z :=
  fold_right Z.add 0%Z
    (map (fun _ => 1%Z) (filter (fun k => contains k text) keywords)).

Definition fallback_analyze (article_title article_content : string)
  : verdict :=
  let text := lower (article_title ++ " " ++ article_content) in
  let score := sum_ones fake_keywords text in
  let is_fake := (2 <=? score)%Z in
  {| is_fake := is_fake;
     confidence :=
       PyFloat.min (0.5 + PyFloat.of_int score * 0.1)%float 0.9 |}.

(** The three literal parts of the prompt's f-string. *)
Definition prompt_head : string :=
  "You are a fake news detection expert. Analyze this news article and determine if it's FAKE or REAL.

TITLE: ".

Definition prompt_middle : string := "

CONTENT: ".

Definition prompt_tail : string := "

Analyze for:
1. Sensationalist language (shocking, unbelievable, miracle)
2. Lack of credible sources
3. Emotional manipulation
4. Logical inconsistencies
5. Implausible claims

Respond with:
- VERDICT: FAKE or REAL
- CONFIDENCE: percentage (e.g., 85%)
- REASON: one sentence explanation

Keep your response brief and focused.".

(** The f-string of [analyze]. *)
Definition build_prompt (article_title article_content : string) : string :=
  prompt_head ++ article_title ++ prompt_middle
  ++ take 1500 article_content ++ prompt_tail.

(** [parse_response(response)] on the value [call_ollama] returned: the
    first statement, [response.lower()], raises [AttributeError] unless the
    value is a [str]; on a [str] the call is [parse_response]. *)
Definition parse_response_of (response : json) : prog verdict :=
  match response with
  | JStr text => Ret (parse_response text)
  | _ => Raise AttributeError
  end.

Definition analyze (article_title article_content : string) : prog verdict :=
  let prompt := build_prompt article_title article_content in
  response <- call_ollama prompt ;;
  if negb (truthy response)
  then Ret (fallback_analyze article_title article_content)
  else
    result <- parse_response_of response ;;
    Ret result.

End Bot.

(** ** The words of the specification, as definitions

    Declarative counterparts of the operations above, used to state what the
    functions of the bot compute. *)

Module Spec.

Import PyStr.

(** [sub] is a substring of [s]. *)
Definition occurs (sub s : string) : Prop :=
  exists pre post, s = pre ++ sub ++ post.

(** [text] contains [marker] case-insensitively ([marker] is lower-case). *)
Definition contains_ci (marker text : string) : Prop :=
  occurs marker (lower text).

(** The number of positions of [s] at which [sub] occurs. *)
Fixpoint occurrences (sub s : string) : Z :=
  ((if startswith sub s then 1 else 0)
   + match s with
     | EmptyString => 0
     | String _ s' => occurrences sub s'
     end)%Z.

(** No proper suffix of [p] is a prefix of [p]: two occurrences of [p]
    cannot overlap. *)
Definition border_free (p : string) : bool :=
  forallb (fun j => negb (startswith (drop j p) p))
    (seq 1 (String.length p - 1)).

(** Every character of [s] satisfies [f]. *)
Fixpoint all_chars (f : ascii -> bool) (s : string) : bool :=
  match s with
  | EmptyString => true
  | String c s' => f c && all_chars f s'
  end.

(** [s] begins with the shape of the regular expression: one to three
    digits [d], an optional percent sign, a run [ws] of whitespace that may
    be empty, and one of the three words. *)
Definition head_shape (s d ws : string) : Prop :=
  exists pct w post,
    s = d ++ pct ++ ws ++ w ++ post
    /\ 1 <= String.length d <= 3
    /\ all_chars PyRe.is_digit d = true
    /\ (pct = "" \/ pct = "%")
    /\ all_chars PyRe.is_space ws = true
    /\ (w = "confident" \/ w = "confidence" \/ w = "certain").

(** The shape occurs in [t] behind the prefix [pre], with number [d]. *)
Definition matches_at (pre d t : string) : Prop :=
  exists s ws, t = pre ++ s /\ head_shape s d ws.

(** [d] is the number of the leftmost occurrence of the shape in [t]. *)
Definition first_match (t d : string) : Prop :=
  exists pre,
    matches_at pre d t
    /\ forall pre' d', matches_at pre' d' t ->
                      String.length pre <= String.length pre'.

(** The shape occurs nowhere in [t]. *)
Definition no_match (t : string) : Prop :=
  forall pre d, ~ matches_at pre d t.

(** The same, when the shape asks for at least one whitespace character
    between the number and the word. *)
Definition spaced_matches_at (pre d t : string) : Prop :=
  exists s ws, t = pre ++ s /\ head_shape s d ws /\ ws <> "".

Definition no_spaced_match (t : string) : Prop :=
  forall pre d, ~ spaced_matches_at pre d t.

(** The confidence given by the phrase cues, and the default. *)
Definition cue_confidence (t : string) : float :=
  if contains "highly likely" t || contains "very confident" t
  then 0.9%float
  else if contains "likely" t || contains "probably" t
  then 0.75%float
  else if contains "possibly" t || contains "might be" t
  then 0.6%float
  else if contains "uncertain" t
  then 0.5%float
  else 0.75%float.

(** The explicit markers and the phrase cues of the verdict. *)
Definition explicit_fake (text : string) : Prop :=
  contains_ci "verdict: fake" text \/ contains_ci "classification: fake" text.

Definition explicit_real (text : string) : Prop :=
  contains_ci "verdict: real" text \/ contains_ci "classification: real" text.

Definition fake_cue (text : string) : Prop :=
  contains_ci "this is fake" text \/ contains_ci "appears to be fake" text.

Definition real_cue (text : string) : Prop :=
  contains_ci "this is real" text
  \/ contains_ci "appears to be real" text
  \/ contains_ci "legitimate" text.

(** The case-insensitive occurrence counts of the two families of tokens. *)
Definition fake_occurrences (text : string) : Z :=
  (occurrences "fake" (lower text)
   + occurrences "misinformation" (lower text)
   + occurrences "false" (lower text))%Z.

Definition real_occurrences (text : string) : Z :=
  (occurrences "real" (lower text)
   + occurrences "legitimate" (lower text)
   + occurrences "credible" (lower text))%Z.

(** The value [call_ollama] makes of a reply. *)
Definition completion (rep : Effects.reply) : Effects.json :=
  match rep with
  | Effects.Raised _ => Effects.JStr ""
  | Effects.Replied r =>
      if ((400 <=? Effects.status_code r)
          && (Effects.status_code r <? 600))%Z
      then Effects.JStr ""
      else match Effects.body r with
           | Some (Effects.JDict entries) =>
               match Effects.dict_get "response" entries with
               | Some v => v
               | None => Effects.JStr ""
               end
           | _ => Effects.JStr ""
           end
  end.

(** The keywords of a list that occur in [text], each once. *)
Definition hits (keywords : list string) (text : string) : list string :=
  filter (fun k => contains k text) keywords.

End Spec.

(** ** The two sample articles of the test harness of [bot.py] *)

Module Samples.

Definition fake_title : string :=
  "SHOCKING: Scientists Discover Miracle Cure They Don't Want You To Know!".

Definition fake_content : string := "
    In an unbelievable revelation, a secret group of researchers has discovered a miracle 
    cure for all diseases. The conspiracy to hide this from the public has been exposed. 
    You won't believe what happens next! Share before it gets deleted!
    ".

Definition real_title : string :=
  "Federal Reserve Announces Interest Rate Decision".

Definition real_content : string := "
    The Federal Reserve announced today that it will maintain current interest rates, 
    citing stable inflation data. Fed Chair Jerome Powell stated that the committee 
    will continue to monitor economic indicators. Markets responded with modest gains.
    ".

(** A completion service that is down, and one that answers every prompt
    with the same text. *)
Definition service_down : Effects.server :=
  fun _ _ => Effects.Raised Effects.ConnectionError.

Definition service_says (text : string) : Effects.server :=
  fun _ _ =>
    Effects.Replied
      {| Effects.status_code := 200;
         Effects.body :=
           Some (Effects.JDict [("response", Effects.JStr text)]) |}.

End Samples.

(** ** Notions used to state further properties of the code *)

Module Derived.

Import Effects.

(** [k] has no space in it. *)
Definition space_free (k : string) : bool :=
  Spec.all_chars (fun c => negb (Ascii.eqb c " ")) k.

(** [s] has no digit in it. *)
Definition digit_free (s : string) : bool :=
  Spec.all_chars (fun c => negb (PyRe.is_digit c)) s.

(** The exception that ends the [try] block of [call_ollama], if any: the
    one [requests.post] raised, or the one of [raise_for_status], of
    [response.json()] or of [.get]. *)
Definition failure (rep : reply) : option exn :=
  match rep with
  | Raised e => Some e
  | Replied r =>
      if ((400 <=? status_code r) && (status_code r <? 600))%Z
      then Some (HTTPError (status_code r))
      else match body r with
           | None => Some JSONDecodeError
           | Some (JDict _) => None
           | Some _ => Some AttributeError
           end
  end.

(** [min(n / 100, 1.0)], the confidence [parse_response] makes of the
    number [n]. *)
Definition percent (n : Z) : float :=
  PyFloat.min (Bot.true_div n 100) 1.

End Derived.

Import PyStr Effects Bot Spec Derived.

(** ** Facts about strings *)

Section StringFacts.

Lemma startswith_app (p r : string) : startswith p (p ++ r) = true.
Proof.
  induction p as [|a p IH]; simpl; [reflexivity|].
  now rewrite Ascii.eqb_refl.
Qed.

Lemma startswith_inv (p s : string) :
  startswith p s = true -> exists r, s = p ++ r.
Proof.
  revert s; induction p as [|a p IH]; intros s H; simpl in *.
  - now exists s.
  - destruct s as [|b s]; [discriminate|].
    apply andb_true_iff in H as [Hab Hp].
    apply Ascii.eqb_eq in Hab; subst b.
    destruct (IH _ Hp) as [r ->]. now exists r.
Qed.

Lemma startswith_empty (p : string) :
  p <> "" -> startswith p "" = false.
Proof. destruct p; [congruence | reflexivity]. Qed.

Lemma contains_unfold (sub s : string) :
  contains sub s
  = startswith sub s
    || match s with
       | EmptyString => false
       | String _ s' => contains sub s'
       end.
Proof. destruct s; reflexivity. Qed.

Lemma contains_occurs (sub s : string) :
  contains sub s = true <-> occurs sub s.
Proof.
  split.
  - induction s as [|c s IH]; rewrite contains_unfold; intros H;
      apply orb_true_iff in H as [H|H].
    + destruct (startswith_inv _ _ H) as [r Hr]. now exists "", r.
    + discriminate.
    + destruct (startswith_inv _ _ H) as [r Hr]. now exists "", r.
    + destruct (IH H) as (pre & post & ->). now exists (String c pre), post.
  - intros (pre & post & ->).
    induction pre as [|c pre IH]; rewrite contains_unfold.
    + simpl. now rewrite startswith_app.
    + simpl. rewrite IH. apply orb_true_r.
Qed.

Lemma contains_false_occurs (sub s : string) :
  contains sub s = false <-> ~ occurs sub s.
Proof.
  rewrite <- contains_occurs. now destruct (contains sub s).
Qed.

Lemma length_drop (j : nat) (p : string) :
  String.length (drop j p) = String.length p - j.
Proof.
  revert p; induction j as [|j IH]; intros [|a p]; simpl; auto with arith.
Qed.

Lemma drop_app (j : nat) (p r : string) :
  j <= String.length p -> drop j (p ++ r) = drop j p ++ r.
Proof.
  revert p; induction j as [|j IH]; intros p Hj; [reflexivity|].
  destruct p as [|a p]; simpl in *; [lia|]. apply IH; lia.
Qed.

Lemma startswith_short (q p r : string) :
  startswith p (q ++ r) = true ->
  String.length q <= String.length p ->
  startswith q p = true.
Proof.
  revert p; induction q as [|a q IH]; intros p H Hlen; [reflexivity|].
  destruct p as [|b p]; simpl in *; [lia|].
  apply andb_true_iff in H as [Hab Hp].
  apply Ascii.eqb_eq in Hab; subst b.
  rewrite Ascii.eqb_refl. apply IH; [assumption | lia].
Qed.

Lemma border_free_no_overlap (p s : string) (j : nat) :
  border_free p = true ->
  startswith p s = true ->
  0 < j < String.length p ->
  startswith p (drop j s) = false.
Proof.
  intros Hbf Hs Hj.
  destruct (startswith_inv _ _ Hs) as [r ->].
  rewrite drop_app by lia.
  destruct (startswith p (drop j p ++ r)) eqn:E; [|reflexivity].
  apply startswith_short in E; [|rewrite length_drop; lia].
  unfold border_free in Hbf. rewrite forallb_forall in Hbf.
  specialize (Hbf j). rewrite E in Hbf.
  assert (In j (seq 1 (String.length p - 1))) as Hin
    by (apply in_seq; lia).
  apply Hbf in Hin. discriminate.
Qed.

Lemma occurrences_unfold (sub s : string) :
  occurrences sub s
  = ((if startswith sub s then 1 else 0)
     + match s with
       | EmptyString => 0
       | String _ s' => occurrences sub s'
       end)%Z.
Proof. destruct s; reflexivity. Qed.

(** On a pattern whose occurrences cannot overlap, the left-to-right scan of
    [str.count] finds every occurrence. *)
Lemma count_from_occurrences (p : string) :
  p <> "" -> border_free p = true ->
  forall s j,
    (forall i, i < j -> startswith p (drop i s) = false) ->
    count_from p j s = occurrences p s.
Proof.
  intros Hne Hbf.
  induction s as [|c s IH]; intros j Hj.
  - simpl. rewrite (startswith_empty p Hne). now destruct j.
  - rewrite occurrences_unfold. destruct j as [|j].
    + cbn [count_from]. destruct (startswith p (String c s)) eqn:E.
      * f_equal. apply IH. intros i Hi.
        apply (border_free_no_overlap p (String c s) (S i) Hbf E). lia.
      * rewrite Z.add_0_l. apply IH. intros i Hi. lia.
    + cbn [count_from].
      assert (startswith p (String c s) = false) as H0
        by (apply (Hj 0); lia).
      rewrite H0, Z.add_0_l.
      apply IH. intros i Hi. apply (Hj (S i)). lia.
Qed.

Lemma count_occurrences (s p : string) :
  p <> "" -> border_free p = true -> count s p = occurrences p s.
Proof.
  intros Hne Hbf. unfold count.
  apply count_from_occurrences; auto. intros i Hi. lia.
Qed.

End StringFacts.

(** ** Facts about the regular expression *)

Section RegexFacts.

Import PyRe.

Lemma orelse_some {A : Type} (a b : option A) (x : A) :
  orelse a b = Some x -> a = Some x \/ (a = None /\ b = Some x).
Proof. destruct a; simpl; intros H; [left | right]; auto. Qed.

Lemma orelse_none {A : Type} (a b : option A) :
  orelse a b = None -> a = None /\ b = None.
Proof. destruct a; simpl; intros H; [discriminate | auto]. Qed.

Lemma all_chars_app (f : ascii -> bool) (a b : string) :
  all_chars f (a ++ b) = all_chars f a && all_chars f b.
Proof.
  induction a as [|c a IH]; simpl; [reflexivity|].
  now rewrite IH, andb_assoc.
Qed.

Lemma digits_spec (k : nat) :
  forall s d r,
    digits k s = Some (d, r) ->
    s = d ++ r /\ String.length d = k /\ all_chars is_digit d = true.
Proof.
  induction k as [|k IH]; intros s d r H; simpl in H.
  - injection H as <- <-. auto.
  - destruct s as [|c s]; [discriminate|].
    destruct (is_digit c) eqn:Hc; [|discriminate].
    destruct (digits k s) as [[d' r']|] eqn:E; [|discriminate].
    injection H as <- <-.
    destruct (IH _ _ _ E) as (-> & <- & Hd).
    simpl. now rewrite Hc, Hd.
Qed.

Lemma digits_complete (d r : string) :
  all_chars is_digit d = true ->
  digits (String.length d) (d ++ r) = Some (d, r).
Proof.
  induction d as [|c d IH]; simpl; intros H; [reflexivity|].
  apply andb_true_iff in H as [Hc Hd].
  now rewrite Hc, (IH Hd).
Qed.

Lemma opt_percent_some {A : Type} (r : string) (k : string -> option A)
      (x : A) :
  opt_percent r k = Some x ->
  exists pct r1, r = pct ++ r1 /\ (pct = "" \/ pct = "%") /\ k r1 = Some x.
Proof.
  destruct r as [|c r1]; simpl.
  - intros H. exists "", "". auto.
  - destruct (Ascii.eqb_spec c "%") as [->|_].
    + intros H. apply orelse_some in H as [H|[_ H]].
      * exists "%", r1. auto.
      * exists "", (String "%" r1). auto.
    + intros H. exists "", (String c r1). auto.
Qed.

Lemma opt_percent_complete {A : Type} (pct r1 : string)
      (k : string -> option A) :
  pct = "" \/ pct = "%" ->
  k r1 <> None -> opt_percent (pct ++ r1) k <> None.
Proof.
  intros [->| ->] Hk.
  - simpl. destruct r1 as [|c r1]; simpl; [assumption|].
    destruct (Ascii.eqb c "%"); [|assumption].
    destruct (k r1); simpl; [discriminate | assumption].
  - simpl. destruct (k r1); simpl; [discriminate | congruence].
Qed.

Lemma spaces_some {A : Type} (k : string -> option A) (x : A) :
  forall s,
    spaces s k = Some x ->
    exists ws r, s = ws ++ r /\ all_chars is_space ws = true /\ k r = Some x.
Proof.
  induction s as [|c s IH]; simpl; intros H.
  - exists "", "". auto.
  - destruct (is_space c) eqn:Hc.
    + apply orelse_some in H as [H|[_ H]].
      * destruct (IH H) as (ws & r & -> & Hws & Hk).
        exists (String c ws), r. simpl. now rewrite Hc, Hws.
      * exists "", (String c s). auto.
    + exists "", (String c s). auto.
Qed.

Lemma spaces_continue {A : Type} (k : string -> option A) (r : string) :
  k r <> None -> spaces r k <> None.
Proof.
  intros Hk. destruct r as [|c r]; simpl; [assumption|].
  destruct (is_space c); [|assumption].
  destruct (spaces r k); simpl; [discriminate | assumption].
Qed.

Lemma spaces_complete {A : Type} (k : string -> option A) (ws r : string) :
  all_chars is_space ws = true ->
  k r <> None -> spaces (ws ++ r) k <> None.
Proof.
  induction ws as [|c ws IH]; simpl; intros Hws Hk.
  - now apply spaces_continue.
  - apply andb_true_iff in Hws as [Hc Hws]. rewrite Hc.
    specialize (IH Hws Hk).
    destruct (spaces (ws ++ r) k); simpl; [discriminate | contradiction].
Qed.

Lemma keyword_inv (s : string) :
  keyword s = true ->
  exists w post,
    s = w ++ post
    /\ (w = "confident" \/ w = "confidence" \/ w = "certain").
Proof.
  unfold keyword. intros H.
  apply orb_true_iff in H as [H|H]; [apply orb_true_iff in H as [H|H]|];
    destruct (startswith_inv _ _ H) as [post ->]; eauto 6.
Qed.

Lemma keyword_complete (w post : string) :
  w = "confident" \/ w = "confidence" \/ w = "certain" ->
  keyword (w ++ post) = true.
Proof.
  unfold keyword. intros [->|[->| ->]]; rewrite startswith_app;
    auto using orb_true_r.
Qed.

Lemma tail_matches_some (d r x : string) :
  tail_matches d r = Some x ->
  x = d
  /\ exists pct ws w post,
       r = pct ++ ws ++ w ++ post
       /\ (pct = "" \/ pct = "%")
       /\ all_chars is_space ws = true
       /\ (w = "confident" \/ w = "confidence" \/ w = "certain").
Proof.
  unfold tail_matches. intros H.
  apply opt_percent_some in H as (pct & r1 & -> & Hpct & H).
  apply spaces_some in H as (ws & r2 & -> & Hws & H).
  destruct (keyword r2) eqn:Hk; [|discriminate].
  injection H as <-.
  destruct (keyword_inv _ Hk) as (w & post & -> & Hw).
  split; [reflexivity|]. exists pct, ws, w, post. auto.
Qed.

Lemma tail_matches_complete (d pct ws w post : string) :
  pct = "" \/ pct = "%" ->
  all_chars is_space ws = true ->
  w = "confident" \/ w = "confidence" \/ w = "certain" ->
  tail_matches d (pct ++ ws ++ w ++ post) <> None.
Proof.
  intros Hpct Hws Hw. unfold tail_matches.
  apply opt_percent_complete; [assumption|].
  apply spaces_complete; [assumption|].
  rewrite (keyword_complete _ _ Hw). discriminate.
Qed.

Lemma match_digits_some (k : nat) (s d : string) :
  1 <= k <= 3 ->
  match_digits k s = Some d -> exists ws, head_shape s d ws.
Proof.
  unfold match_digits. intros Hk H.
  destruct (digits k s) as [[d' r]|] eqn:E; [|discriminate].
  apply digits_spec in E as (-> & Hlen & Hd).
  apply tail_matches_some in H as (-> & pct & ws & w & post & -> & H).
  exists ws, pct, w, post. rewrite Hlen. tauto.
Qed.

Lemma match_at_some (s d : string) :
  match_at s = Some d -> exists ws, head_shape s d ws.
Proof.
  unfold match_at. intros H.
  apply orelse_some in H as [H|[_ H]];
    [|apply orelse_some in H as [H|[_ H]]];
    eapply match_digits_some; try eassumption; lia.
Qed.

Lemma match_at_complete (s d ws : string) :
  head_shape s d ws -> match_at s <> None.
Proof.
  intros (pct & w & post & -> & Hlen & Hd & Hpct & Hws & Hw).
  assert (match_digits (String.length d)
            (d ++ pct ++ ws ++ w ++ post) <> None) as Hm.
  { unfold match_digits. rewrite (digits_complete _ _ Hd).
    now apply tail_matches_complete. }
  unfold match_at. intros H.
  apply orelse_none in H as [H3 H]. apply orelse_none in H as [H2 H1].
  assert (String.length d = 1 \/ String.length d = 2
          \/ String.length d = 3) as [E|[E|E]] by lia;
    rewrite E in Hm; contradiction.
Qed.

Lemma search_unfold (s : string) :
  search s
  = orelse (match_at s)
      match s with
      | EmptyString => None
      | String _ s' => search s'
      end.
Proof. destruct s; reflexivity. Qed.

Lemma search_some (t d : string) :
  search t = Some d ->
  exists pre s,
    t = pre ++ s
    /\ match_at s = Some d
    /\ forall pre1 s1,
         t = pre1 ++ s1 ->
         String.length pre1 < String.length pre -> match_at s1 = None.
Proof.
  induction t as [|c t IH]; rewrite search_unfold; intros H;
    apply orelse_some in H as [H|[Hn H]]; try discriminate.
  - exists "", (String c t). split; [reflexivity|]. split; [assumption|].
    intros pre1 s1 _ Hlen. simpl in Hlen. lia.
  - destruct (IH H) as (pre & s & -> & Hm & Hleft).
    exists (String c pre), s. split; [reflexivity|]. split; [assumption|].
    intros [|c1 pre1] s1 E Hlen; simpl in *.
    + now subst s1.
    + injection E as <- E. apply (Hleft pre1 s1 E). lia.
Qed.

Lemma search_none (t : string) :
  search t = None -> forall pre s, t = pre ++ s -> match_at s = None.
Proof.
  induction t as [|c t IH]; rewrite search_unfold; intros H;
    apply orelse_none in H as [Hn H]; intros [|c1 pre] s E; simpl in E;
    try discriminate; try (now subst s).
  injection E as <- E. now apply (IH H pre).
Qed.

(** [re.search] finds the leftmost occurrence of the shape. *)
Lemma search_first_match (t d : string) :
  search t = Some d -> first_match t d.
Proof.
  intros H. destruct (search_some _ _ H) as (pre & s & -> & Hm & Hleft).
  destruct (match_at_some _ _ Hm) as [ws Hs].
  exists pre. split; [now exists s, ws|].
  intros pre' d' (s' & ws' & E & Hs').
  destruct (Nat.le_gt_cases (String.length pre) (String.length pre'))
    as [Hle|Hlt]; [assumption|].
  pose proof (Hleft _ _ E Hlt) as Hnone.
  now apply match_at_complete in Hs'.
Qed.

(** [re.search] fails only when the shape occurs nowhere. *)
Lemma search_no_match (t : string) :
  search t = None -> no_match t.
Proof.
  intros H pre d (s & ws & E & Hs).
  apply match_at_complete in Hs. apply Hs.
  now apply (search_none _ H pre).
Qed.

End RegexFacts.

(** ** The verdict of [parse_response] *)

Section VerdictFacts.

Lemma contains_ci_true (marker text : string) :
  contains_ci marker text -> contains marker (lower text) = true.
Proof. apply contains_occurs. Qed.

Lemma contains_ci_false (marker text : string) :
  ~ contains_ci marker text -> contains marker (lower text) = false.
Proof. apply contains_false_occurs. Qed.

Lemma explicit_fake_true (text : string) :
  explicit_fake text ->
  contains "verdict: fake" (lower text)
  || contains "classification: fake" (lower text) = true.
Proof.
  intros [H|H]; apply contains_ci_true in H; rewrite H;
    auto using orb_true_r.
Qed.

Lemma explicit_fake_false (text : string) :
  ~ explicit_fake text ->
  contains "verdict: fake" (lower text)
  || contains "classification: fake" (lower text) = false.
Proof.
  intros H. apply orb_false_iff; split; apply contains_ci_false;
    intros C; apply H; [left | right]; exact C.
Qed.

Lemma explicit_real_true (text : string) :
  explicit_real text ->
  contains "verdict: real" (lower text)
  || contains "classification: real" (lower text) = true.
Proof.
  intros [H|H]; apply contains_ci_true in H; rewrite H;
    auto using orb_true_r.
Qed.

Lemma explicit_real_false (text : string) :
  ~ explicit_real text ->
  contains "verdict: real" (lower text)
  || contains "classification: real" (lower text) = false.
Proof.
  intros H. apply orb_false_iff; split; apply contains_ci_false;
    intros C; apply H; [left | right]; exact C.
Qed.

Lemma fake_cue_false (text : string) :
  ~ fake_cue text ->
  contains "this is fake" (lower text)
  || contains "appears to be fake" (lower text) = false.
Proof.
  intros H. apply orb_false_iff; split; apply contains_ci_false;
    intros C; apply H; [left | right]; exact C.
Qed.

Lemma real_cue_false (text : string) :
  ~ real_cue text ->
  contains "this is real" (lower text)
  || contains "appears to be real" (lower text)
  || contains "legitimate" (lower text) = false.
Proof.
  intros H. unfold real_cue in H.
  repeat (apply orb_false_iff; split); apply contains_ci_false; tauto.
Qed.

(** [str.count] agrees with the number of occurrences on the six tokens of
    the frequency heuristic: none of them can overlap itself. *)
Lemma fake_count_occurrences (text : string) :
  (count (lower text) "fake"
   + count (lower text) "misinformation"
   + count (lower text) "false")%Z
  = fake_occurrences text.
Proof.
  unfold fake_occurrences.
  rewrite !count_occurrences; (reflexivity || discriminate).
Qed.

Lemma real_count_occurrences (text : string) :
  (count (lower text) "real"
   + count (lower text) "legitimate"
   + count (lower text) "credible")%Z
  = real_occurrences text.
Proof.
  unfold real_occurrences.
  rewrite !count_occurrences; (reflexivity || discriminate).
Qed.

(** Without marker and cue the verdict is the comparison of the counts. *)
Lemma is_fake_by_frequency (text : string) :
  ~ explicit_fake text -> ~ explicit_real text ->
  ~ fake_cue text -> ~ real_cue text ->
  is_fake (parse_response text)
  = (real_occurrences text <? fake_occurrences text)%Z.
Proof.
  intros Hf Hr Hfc Hrc. unfold parse_response. cbn [is_fake].
  rewrite (explicit_fake_false _ Hf), (explicit_real_false _ Hr),
    (fake_cue_false _ Hfc), (real_cue_false _ Hrc).
  now rewrite fake_count_occurrences, real_count_occurrences.
Qed.

End VerdictFacts.

(** C3: an explicit fake marker, with no explicit real marker in the text,
    gives [is_fake = true], whatever phrase cues and keyword counts the text
    has besides; an explicit real marker, with no explicit fake marker, gives
    [is_fake = false]. *)
Theorem explicit_marker_decides (text : string) :
  (explicit_fake text -> ~ explicit_real text ->
   is_fake (parse_response text) = true)
  /\ (explicit_real text -> ~ explicit_fake text ->
      is_fake (parse_response text) = false).
Proof.
  split.
  - intros Hf _. unfold parse_response. cbn [is_fake].
    now rewrite (explicit_fake_true _ Hf).
  - intros Hr Hf. unfold parse_response. cbn [is_fake].
    now rewrite (explicit_fake_false _ Hf), (explicit_real_true _ Hr).
Qed.

Lemma explicit_marker_decides_witness :
  is_fake (parse_response
             "Verdict: FAKE. This is real, legitimate and credible.") = true
  /\ is_fake (parse_response
                "CLASSIFICATION: Real - not fake, not false, not a hoax") = false.
Proof.
  split.
  - apply (proj1 (explicit_marker_decides _)).
    + left. apply contains_occurs. vm_compute. reflexivity.
    + intros [H|H]; apply contains_occurs in H; vm_compute in H;
        discriminate.
  - apply (proj2 (explicit_marker_decides _)).
    + right. apply contains_occurs. vm_compute. reflexivity.
    + intros [H|H]; apply contains_occurs in H; vm_compute in H;
        discriminate.
Defined.

(** C10: a text with both an explicit fake marker and an explicit real marker
    gets [is_fake = true]: the fake markers are tested first. *)
Theorem fake_marker_wins (text : string) :
  explicit_fake text -> explicit_real text ->
  is_fake (parse_response text) = true.
Proof.
  intros Hf _. unfold parse_response. cbn [is_fake].
  now rewrite (explicit_fake_true _ Hf).
Qed.

Lemma fake_marker_wins_witness :
  is_fake (parse_response "Verdict: REAL. Classification: FAKE") = true.
Proof.
  apply fake_marker_wins.
  - right. apply contains_occurs. vm_compute. reflexivity.
  - left. apply contains_occurs. vm_compute. reflexivity.
Defined.

(** C4: with no explicit marker and no phrase cue, [is_fake] is true exactly
    when the case-insensitive occurrence count of fake, misinformation and
    false exceeds that of real, legitimate and credible; a tie gives false,
    and three against one gives true. *)
Theorem frequency_heuristic (text : string) :
  ~ explicit_fake text -> ~ explicit_real text ->
  ~ fake_cue text -> ~ real_cue text ->
  (is_fake (parse_response text) = true
   <-> (real_occurrences text < fake_occurrences text)%Z)
  /\ (fake_occurrences text = real_occurrences text ->
      is_fake (parse_response text) = false)
  /\ (fake_occurrences text = 3%Z -> real_occurrences text = 1%Z ->
      is_fake (parse_response text) = true).
Proof.
  intros Hf Hr Hfc Hrc.
  rewrite (is_fake_by_frequency _ Hf Hr Hfc Hrc).
  split; [apply Z.ltb_lt|]. split.
  - intros ->. apply Z.ltb_irrefl.
  - intros -> ->. reflexivity.
Qed.

Lemma frequency_heuristic_witness :
  let text := "Fake claims, FALSE numbers, misinformation; one real quote" in
  fake_occurrences text = 3%Z
  /\ real_occurrences text = 1%Z
  /\ is_fake (parse_response text) = true.
Proof.
  intros text.
  assert (fake_occurrences text = 3%Z) as H3 by (vm_compute; reflexivity).
  assert (real_occurrences text = 1%Z) as H1 by (vm_compute; reflexivity).
  split; [exact H3|]. split; [exact H1|].
  refine (proj2 (proj2 (frequency_heuristic text _ _ _ _)) H3 H1).
  - intros [H|H]; apply contains_occurs in H; vm_compute in H; discriminate.
  - intros [H|H]; apply contains_occurs in H; vm_compute in H; discriminate.
  - intros [H|H]; apply contains_occurs in H; vm_compute in H; discriminate.
  - intros [H|[H|H]]; apply contains_occurs in H; vm_compute in H;
      discriminate.
Defined.

(** ** The number of a match and the confidence it gives *)

Section ConfidenceFacts.

Import PyRe.

Lemma space_not_digit (c : ascii) : is_space c = true -> is_digit c = false.
Proof.
  unfold is_space, is_digit. cbv zeta.
  generalize (nat_of_ascii c) as n. intros n H.
  apply andb_false_iff.
  repeat (apply orb_true_iff in H as [H|H]);
    repeat (apply andb_true_iff in H as [? H]);
    repeat match goal with
           | H : (_ <=? _)%nat = true |- _ => apply Nat.leb_le in H
           | H : (_ =? _)%nat = true |- _ => apply Nat.eqb_eq in H
           end;
    rewrite !Nat.leb_nle; lia.
Qed.

(** The character behind the digits of an occurrence is no digit. *)
Lemma digits_stop (k : nat) (pct ws w post : string) :
  pct = "" \/ pct = "%" ->
  all_chars is_space ws = true ->
  w = "confident" \/ w = "confidence" \/ w = "certain" ->
  digits (S k) (pct ++ ws ++ w ++ post) = None.
Proof.
  intros [->| ->] Hws Hw; [|reflexivity].
  destruct ws as [|c ws].
  - destruct Hw as [->|[->| ->]]; reflexivity.
  - simpl in Hws. apply andb_true_iff in Hws as [Hc _].
    simpl. now rewrite (space_not_digit _ Hc).
Qed.

Lemma digits_too_many (d rest : string) (k : nat) :
  (forall j, digits (S j) rest = None) ->
  String.length d < k -> digits k (d ++ rest) = None.
Proof.
  intros Hrest. revert k. induction d as [|c d IH]; intros k Hk.
  - destruct k as [|k]; [simpl in Hk; lia | apply Hrest].
  - destruct k as [|k]; [lia|]. simpl in Hk. simpl.
    destruct (is_digit c); [|reflexivity].
    rewrite IH by lia. reflexivity.
Qed.

(** At a position where the shape occurs, the matcher returns its number. *)
Lemma head_shape_match_at (s d ws : string) :
  head_shape s d ws -> match_at s = Some d.
Proof.
  intros (pct & w & post & -> & Hlen & Hd & Hpct & Hws & Hw).
  assert (forall k, String.length d < k ->
                    match_digits k (d ++ pct ++ ws ++ w ++ post) = None)
    as Hmore.
  { intros k Hk. unfold match_digits.
    rewrite digits_too_many; auto.
    intros j. now apply digits_stop. }
  assert (match_digits (String.length d)
            (d ++ pct ++ ws ++ w ++ post) = Some d) as Hhere.
  { unfold match_digits. rewrite (digits_complete _ _ Hd).
    pose proof (tail_matches_complete d pct ws w post Hpct Hws Hw) as Hne.
    destruct (tail_matches d (pct ++ ws ++ w ++ post)) as [x|] eqn:E;
      [|contradiction].
    now apply tail_matches_some in E as [-> _]. }
  unfold match_at.
  assert (String.length d = 1 \/ String.length d = 2
          \/ String.length d = 3) as [E|[E|E]] by lia;
    rewrite E in Hhere, Hmore.
  - rewrite (Hmore 3), (Hmore 2) by lia. exact Hhere.
  - rewrite (Hmore 3), Hhere by lia. reflexivity.
  - rewrite Hhere. reflexivity.
Qed.

Lemma append_inj_length (a b c d : string) :
  a ++ b = c ++ d -> String.length a = String.length c -> a = c /\ b = d.
Proof.
  revert c; induction a as [|x a IH]; intros [|y c] E Hlen; simpl in *;
    try discriminate; auto.
  injection E as <- E. injection Hlen as Hlen.
  destruct (IH _ E Hlen) as [-> ->]. auto.
Qed.

(** The leftmost occurrence has one number. *)
Lemma first_match_unique (t d d' : string) :
  first_match t d -> first_match t d' -> d' = d.
Proof.
  intros (pre & Hm & Hleft) (pre' & Hm' & Hleft').
  pose proof (Hleft _ _ Hm') as H1. pose proof (Hleft' _ _ Hm) as H2.
  destruct Hm as (s & ws & E & Hs). destruct Hm' as (s' & ws' & E' & Hs').
  rewrite E in E'.
  destruct (append_inj_length _ _ _ _ E') as [_ <-]; [lia|].
  apply head_shape_match_at in Hs, Hs'. congruence.
Qed.

Lemma digit_val_bounds (c : ascii) :
  is_digit c = true -> (0 <= digit_val c <= 9)%Z.
Proof.
  unfold is_digit, digit_val. cbv zeta. intros H.
  apply andb_true_iff in H as [H1 H2].
  apply Nat.leb_le in H1, H2. lia.
Qed.

(** A number of one to three digits is below 1000. *)
Lemma int_bounds (d : string) :
  all_chars is_digit d = true -> String.length d <= 3 ->
  (0 <= int d < 1000)%Z.
Proof.
  intros Hd Hlen. unfold int.
  destruct d as [|a [|b [|c [|x d]]]];
    cbn [int_acc all_chars String.length] in *; try lia;
    repeat match goal with
           | H : _ && _ = true |- _ => apply andb_true_iff in H as [? H]
           end;
    repeat match goal with
           | H : is_digit _ = true |- _ => apply digit_val_bounds in H
           end;
    lia.
Qed.

Lemma percent_table :
  forallb
    (fun n => PyFloat.between 0 1
                (PyFloat.min (true_div (Z.of_nat n) 100) 1))
    (seq 0 1000) = true.
Proof. vm_compute. reflexivity. Qed.

(** [min(n / 100, 1.0)] lies in the unit interval for [n] below 1000. *)
Lemma percent_in_range (n : Z) :
  (0 <= n < 1000)%Z ->
  PyFloat.between 0 1 (PyFloat.min (true_div n 100) 1) = true.
Proof.
  intros Hn. pose proof percent_table as T.
  rewrite forallb_forall in T.
  specialize (T (Z.to_nat n)). rewrite Z2Nat.id in T by lia.
  apply T. apply in_seq. lia.
Qed.

Lemma cue_confidence_in_range (t : string) :
  PyFloat.between 0 1 (cue_confidence t) = true.
Proof.
  unfold cue_confidence.
  repeat match goal with
         | |- context [if ?b then _ else _] => destruct b
         end; reflexivity.
Qed.

(** The confidence of [parse_response], by the outcome of the search. *)
Lemma confidence_by_search (response : string) :
  confidence (parse_response response)
  = match search (lower response) with
    | Some d => PyFloat.min (true_div (int d) 100) 1
    | None => cue_confidence (lower response)
    end.
Proof. reflexivity. Qed.

Lemma parse_response_in_range (response : string) :
  PyFloat.between 0 1 (confidence (parse_response response)) = true.
Proof.
  rewrite confidence_by_search.
  destruct (search (lower response)) as [d|] eqn:E.
  - apply search_first_match in E as (pre & (s & ws & _ & Hs) & _).
    destruct Hs as (pct & w & post & _ & Hlen & Hd & _).
    apply percent_in_range, int_bounds; [assumption | lia].
  - apply cue_confidence_in_range.
Qed.

End ConfidenceFacts.

(** C5, as stated, fails on the code: the claim puts whitespace between the
    number and the word, and the regular expression has [\s*] there, which
    also matches no whitespace at all.  In the text below the shape with
    whitespace occurs nowhere, so the claimed cascade goes on to the phrase
    cues and ends at the default 0.75; [parse_response] returns 0.87. *)
Lemma confidence_without_whitespace :
  let response := "87%confident" in
  no_spaced_match (lower response)
  /\ cue_confidence (lower response) = 0.75%float
  /\ confidence (parse_response response) = 0.87%float.
Proof.
  intros response. split; [|split; reflexivity].
  intros pre d (s & ws & E & Hs & Hne).
  destruct Hs as (pct & w & post & -> & _ & _ & _ & Hws & _).
  assert (all_chars (fun c => negb (PyRe.is_space c)) (lower response) = true)
    as Hno by reflexivity.
  rewrite E, !all_chars_app in Hno.
  repeat (apply andb_true_iff in Hno as [? Hno] || clear Hno).
  destruct ws as [|c ws]; [congruence|]. simpl in *.
  repeat match goal with
         | H : _ && _ = true |- _ => apply andb_true_iff in H as [? ?]
         end.
  destruct (PyRe.is_space c); discriminate.
Qed.

(** C5, amended: the confidence comes from an ordered cascade over the
    lower-cased text alone.  When the shape "one to three digits, optional
    percent sign, optional whitespace, confident / confidence / certain"
    occurs, the confidence is the number of its leftmost occurrence divided by
    100 and capped at 1.0; otherwise it is 0.9, 0.75, 0.6 or 0.5 by the phrase
    cues, and 0.75 by default.  "87% confident" gives 0.87 and
    "150% confident" gives 1.0. *)
Theorem confidence_cascade :
  (forall response : string,
      let t := lower response in
      let c := confidence (parse_response response) in
      (exists d,
          first_match t d
          /\ (forall d', first_match t d' -> d' = d)
          /\ c = PyFloat.min (true_div (PyRe.int d) 100) 1)
      \/ (no_match t /\ c = cue_confidence t))
  /\ confidence (parse_response "87% confident") = 0.87%float
  /\ confidence (parse_response "150% confident") = 1%float.
Proof.
  split; [|split; reflexivity].
  intros response t c. subst t c. rewrite confidence_by_search.
  destruct (PyRe.search (lower response)) as [d|] eqn:E.
  - left. exists d. apply search_first_match in E.
    split; [assumption|]. split; [|reflexivity].
    intros d' Hd'. now apply (first_match_unique (lower response)).
  - right. split; [|reflexivity]. now apply search_no_match.
Qed.

(** ** The fallback classifier *)

Section FallbackFacts.

Lemma sum_ones_length (keywords : list string) (text : string) :
  sum_ones keywords text = Z.of_nat (List.length (hits keywords text)).
Proof.
  unfold sum_ones, hits.
  induction (filter (fun k => contains k text) keywords) as [|k l IH];
    [reflexivity|].
  cbn [map fold_right List.length]. rewrite IH. lia.
Qed.

Lemma hits_spec (keywords : list string) (text k : string) :
  In k (hits keywords text) <-> In k keywords /\ occurs k text.
Proof.
  unfold hits. rewrite filter_In. now rewrite contains_occurs.
Qed.

Lemma hits_at_most (keywords : list string) (text : string) :
  List.length (hits keywords text) <= List.length keywords.
Proof. apply filter_length_le. Qed.

Lemma fake_keywords_NoDup : NoDup fake_keywords.
Proof.
  unfold fake_keywords.
  repeat (constructor;
          [simpl; intros H;
           repeat (destruct H as [H|H]; [discriminate|]); exact H|]).
  constructor.
Qed.

(** The verdict of the fallback for each score. *)
Lemma fallback_by_score (title content : string) :
  fallback_analyze title content
  = let score :=
      Z.of_nat
        (List.length
           (hits fake_keywords (lower (title ++ " " ++ content)))) in
    {| is_fake := (2 <=? score)%Z;
       confidence :=
         PyFloat.min (0.5 + PyFloat.of_int score * 0.1)%float 0.9 |}.
Proof.
  unfold fallback_analyze. cbv zeta. now rewrite sum_ones_length.
Qed.

Lemma fallback_in_range (title content : string) :
  PyFloat.between 0 1 (confidence (fallback_analyze title content)) = true.
Proof.
  rewrite fallback_by_score. cbv zeta.
  pose proof (hits_at_most fake_keywords
                (lower (title ++ " " ++ content))) as H.
  change (List.length fake_keywords) with 5 in H.
  destruct (List.length
              (hits fake_keywords (lower (title ++ " " ++ content))))
    as [|[|[|[|[|[|n]]]]]]; try lia; reflexivity.
Qed.

End FallbackFacts.

(** C6, as stated, fails on the code: the claim scores the concatenation of
    title and content, and [fallback_analyze] puts a space between the two.
    A keyword that begins in the title and ends in the content is in the
    concatenation and not in the scored text: the concatenation below has two
    keywords, for which the claim gives (true, 0.7), and [fallback_analyze]
    finds one and returns (false, 0.6). *)
Lemma fallback_keyword_across_boundary :
  let title := "shock" in
  let content := "ing secret" in
  sum_ones fake_keywords (lower (title ++ content)) = 2%Z
  /\ fallback_analyze title content
     = {| is_fake := false; confidence := 0.6 |}.
Proof. split; reflexivity. Qed.

(** C6, amended: [fallback_analyze] lower-cases the title, one space and the
    content, put together in this order; the score is the number of the five
    keywords that occur in this text as substrings, each counted once, so it
    is between 0 and 5; [is_fake] is [score >= 2] and the confidence is
    [min(0.5 + 0.1 * score, 0.9)].  Two keywords give (true, 0.7) and none
    gives (false, 0.5). *)
Theorem fallback_scores_keywords (title content : string) :
  let text := lower (title ++ " " ++ content) in
  let found := hits fake_keywords text in
  let score := Z.of_nat (List.length found) in
  NoDup found
  /\ (forall k, In k found <-> In k fake_keywords /\ occurs k text)
  /\ (0 <= score <= 5)%Z
  /\ is_fake (fallback_analyze title content) = (2 <=? score)%Z
  /\ confidence (fallback_analyze title content)
     = PyFloat.min (0.5 + 0.1 * PyFloat.of_int score)%float 0.9
  /\ (score = 2%Z ->
      fallback_analyze title content
      = {| is_fake := true; confidence := 0.7 |})
  /\ (score = 0%Z ->
      fallback_analyze title content
      = {| is_fake := false; confidence := 0.5 |}).
Proof.
  intros text found score.
  assert (0 <= score <= 5)%Z as Hscore.
  { pose proof (hits_at_most fake_keywords text) as H.
    change (List.length fake_keywords) with 5 in H. subst score found. lia. }
  split; [apply NoDup_filter, fake_keywords_NoDup|].
  split; [intros k; apply hits_spec|].
  split; [exact Hscore|].
  rewrite fallback_by_score. fold text. fold found. fold score.
  cbv zeta. cbn [is_fake confidence].
  split; [reflexivity|]. split.
  - assert (score = 0 \/ score = 1 \/ score = 2 \/ score = 3
            \/ score = 4 \/ score = 5)%Z as H by lia.
    destruct H as [->|[->|[->|[->|[->| ->]]]]]; reflexivity.
  - split; intros ->; reflexivity.
Qed.

(** ** Running the programs *)

Section RunFacts.

Lemma run_bind_result {A B : Type} (p : prog A) (f : A -> prog B)
      (srv : server) :
  forall n,
    result (run (bind p f) srv n)
    = match result (run p srv n) with
      | inl a =>
          result (run (f a) srv (n + List.length (requests (run p srv n))))
      | inr e => inr e
      end.
Proof.
  induction p as [a|e|rq k IH|e k IH]; intros n; cbn [bind run result requests].
  - now rewrite Nat.add_0_r.
  - reflexivity.
  - rewrite IH. cbn [List.length]. now rewrite Nat.add_succ_r.
  - apply IH.
Qed.

Lemma run_bind_requests {A B : Type} (p : prog A) (f : A -> prog B)
      (srv : server) :
  forall n,
    requests (run (bind p f) srv n)
    = (requests (run p srv n)
       ++ match result (run p srv n) with
          | inl a =>
              requests
                (run (f a) srv (n + List.length (requests (run p srv n))))
          | inr e => []
          end)%list.
Proof.
  induction p as [a|e|rq k IH|e k IH]; intros n; cbn [bind run result requests].
  - now rewrite Nat.add_0_r.
  - reflexivity.
  - rewrite IH. cbn [List.length app]. now rewrite Nat.add_succ_r.
  - apply IH.
Qed.

(** One request goes out, and the reply decides the value returned. *)
Lemma run_call_ollama (prompt : string) (srv : server) (n : nat) :
  result (run (call_ollama prompt) srv n)
  = inl (completion (srv n (ollama_request prompt)))
  /\ requests (run (call_ollama prompt) srv n) = [ollama_request prompt].
Proof.
  unfold call_ollama, requests_post.
  cbn [bind try_except run result requests].
  destruct (srv n (ollama_request prompt)) as [e|[st b]];
    cbn [bind try_except run result requests completion status_code body];
    [split; reflexivity|].
  unfold raise_for_status. cbn [status_code].
  destruct ((400 <=? st) && (st <? 600))%Z;
    cbn [bind try_except run result requests]; [split; reflexivity|].
  unfold response_json. cbn [body].
  destruct b as [[| | | | | |entries]|];
    cbn [bind try_except run result requests get_response];
    try (split; reflexivity).
  destruct (dict_get "response" entries);
    cbn [bind try_except run result requests]; split; reflexivity.
Qed.

(** What [analyze] makes of the value the client returned. *)
Lemma run_analyze (title content : string) (srv : server) (n : nat) :
  let value :=
    completion (srv n (ollama_request (build_prompt title content))) in
  result (run (analyze title content) srv n)
  = (if truthy value
     then match value with
          | JStr text => inl (parse_response text)
          | _ => inr AttributeError
          end
     else inl (fallback_analyze title content))
  /\ requests (run (analyze title content) srv n)
     = [ollama_request (build_prompt title content)].
Proof.
  intros value. unfold analyze. cbv zeta.
  rewrite run_bind_result, run_bind_requests.
  destruct (run_call_ollama (build_prompt title content) srv n) as [-> ->].
  fold value. destruct (truthy value); cbn [negb]; [|split; reflexivity].
  destruct value; split; reflexivity.
Qed.

Lemma is_falsy_empty (s : string) : is_falsy s = true <-> s = "".
Proof. destruct s; simpl; split; congruence. Qed.

Lemma truthy_text (text : string) : truthy (JStr text) = true <-> text <> "".
Proof. destruct text; simpl; split; congruence. Qed.

Lemma length_take (n : nat) (s : string) :
  String.length (take n s) = Nat.min n (String.length s).
Proof.
  revert s; induction n as [|n IH]; intros [|c s]; simpl; auto.
Qed.

Lemma take_drop (n : nat) (s : string) : s = take n s ++ drop n s.
Proof.
  revert s; induction n as [|n IH]; intros [|c s]; simpl; auto.
  now rewrite <- IH.
Qed.

End RunFacts.

(** C1, where the code breaks it: [call_ollama] returns the member
    [response] of the reply as it is.  When the member is a true value that
    is no text (a number, [true], a non-empty list or object), [analyze]
    hands it to [parse_response], whose [response.lower()] raises
    [AttributeError]; nothing catches it and [analyze] returns no verdict. *)
Theorem analyze_raises_on_non_text_response
        (title content : string) (srv : server) (n : nat) (value : json) :
  result (run (call_ollama (build_prompt title content)) srv n) = inl value ->
  truthy value = true ->
  (forall text, value <> JStr text) ->
  result (run (analyze title content) srv n) = inr AttributeError.
Proof.
  intros Hc Ht Hv.
  destruct (run_call_ollama (build_prompt title content) srv n) as [C _].
  rewrite C in Hc. injection Hc as Hc.
  destruct (run_analyze title content srv n) as [-> _].
  rewrite Hc, Ht.
  destruct value; try reflexivity. now destruct (Hv s).
Qed.

Lemma analyze_raises_on_non_text_response_witness :
  let srv : server :=
    fun _ _ =>
      Replied {| status_code := 200;
                 body := Some (JDict [("response", JInt 5)]) |} in
  result (run (analyze "Rates unchanged" "The bank kept its rate") srv 0)
  = inr AttributeError.
Proof.
  intros srv.
  apply (analyze_raises_on_non_text_response
           "Rates unchanged" "The bank kept its rate" srv 0 (JInt 5)).
  - reflexivity.
  - reflexivity.
  - discriminate.
Defined.

(** C2: when the completion client returns the empty string, [analyze]
    returns the verdict of [fallback_analyze] on the same title and content;
    when it returns any other text, [analyze] returns [parse_response] of
    that text. *)
Theorem analyze_dispatch (title content : string) (srv : server) (n : nat) :
  exists value : json,
    result (run (call_ollama (build_prompt title content)) srv n) = inl value
    /\ (value = JStr "" ->
        result (run (analyze title content) srv n)
        = inl (fallback_analyze title content))
    /\ (forall text : string,
          value = JStr text -> text <> "" ->
          result (run (analyze title content) srv n)
          = inl (parse_response text)).
Proof.
  destruct (run_call_ollama (build_prompt title content) srv n) as [Hc _].
  destruct (run_analyze title content srv n) as [Ha _].
  eexists. split; [exact Hc|]. rewrite Ha.
  split.
  - intros ->. reflexivity.
  - intros text -> Hne. now rewrite (proj2 (truthy_text text) Hne).
Qed.

(** C9: when the completion client returns the same non-empty text for two
    articles, [analyze] returns the same verdict for both, the one
    [parse_response] makes of the text. *)
Theorem verdict_depends_on_completion_only
        (text title1 content1 title2 content2 : string)
        (srv1 srv2 : server) (n1 n2 : nat) :
  text <> "" ->
  result (run (call_ollama (build_prompt title1 content1)) srv1 n1)
  = inl (JStr text) ->
  result (run (call_ollama (build_prompt title2 content2)) srv2 n2)
  = inl (JStr text) ->
  result (run (analyze title1 content1) srv1 n1)
  = result (run (analyze title2 content2) srv2 n2)
  /\ result (run (analyze title1 content1) srv1 n1)
     = inl (parse_response text).
Proof.
  intros Hne H1 H2.
  destruct (run_call_ollama (build_prompt title1 content1) srv1 n1) as [C1 _].
  destruct (run_call_ollama (build_prompt title2 content2) srv2 n2) as [C2 _].
  rewrite C1 in H1. rewrite C2 in H2. injection H1 as H1. injection H2 as H2.
  destruct (run_analyze title1 content1 srv1 n1) as [-> _].
  destruct (run_analyze title2 content2 srv2 n2) as [-> _].
  rewrite H1, H2, (proj2 (truthy_text text) Hne). auto.
Qed.

Lemma verdict_depends_on_completion_only_witness :
  let srv : server :=
    fun _ _ =>
      Replied
        {| status_code := 200;
           body :=
             Some (JDict [("response", JStr "VERDICT: FAKE, 90% confident")])
        |}
  in
  result (run (analyze "Miracle cure found" "Doctors hate it") srv 0)
  = result (run (analyze "Rates unchanged" "The bank kept its rate") srv 0)
  /\ result (run (analyze "Miracle cure found" "Doctors hate it") srv 0)
     = inl {| is_fake := true; confidence := 0.9 |}.
Proof.
  intros srv.
  apply (verdict_depends_on_completion_only "VERDICT: FAKE, 90% confident").
  - discriminate.
  - reflexivity.
  - reflexivity.
Defined.

(** C7: the one request of [analyze] carries the prompt, which is the fixed
    text with the title in it as it is and the first 1500 characters of the
    content; what the content has behind them has no part in the request. *)
Theorem prompt_truncates_content (title content : string) (srv : server)
        (n : nat) :
  requests (run (analyze title content) srv n)
  = [ollama_request (build_prompt title content)]
  /\ prompt (ollama_request (build_prompt title content))
     = prompt_head ++ title ++ prompt_middle
       ++ take 1500 content ++ prompt_tail
  /\ content = take 1500 content ++ drop 1500 content
  /\ String.length (take 1500 content) = Nat.min 1500 (String.length content)
  /\ (forall content' : string,
        take 1500 content' = take 1500 content ->
        requests (run (analyze title content') srv n)
        = requests (run (analyze title content) srv n)).
Proof.
  destruct (run_analyze title content srv n) as [_ Hr].
  split; [exact Hr|]. split; [reflexivity|].
  split; [apply take_drop|]. split; [apply length_take|].
  intros content' H.
  destruct (run_analyze title content' srv n) as [_ ->].
  rewrite Hr. unfold build_prompt. now rewrite H.
Qed.

(** C8, as stated, fails on the code: [raise_for_status] raises for the
    statuses 400 to 599 only, so a reply whose status is outside 200..299 and
    outside 400..599 is not turned into the empty string.  With status 300
    and a well-formed body, [call_ollama] returns the text of the body. *)
Lemma status_300_is_not_unavailable :
  let r := {| status_code := 300;
              body := Some (JDict [("response", JStr "VERDICT: REAL")]) |} in
  let srv : server := fun _ _ => Replied r in
  ((200 <=? status_code r) && (status_code r <=? 299))%Z = false
  /\ result (run (call_ollama "prompt") srv 0) = inl (JStr "VERDICT: REAL")
  /\ requests (run (call_ollama "prompt") srv 0) = [ollama_request "prompt"].
Proof. repeat split. Qed.

(** C8, amended: [call_ollama] sends exactly one request and always returns a
    value, never an exception.  The value is the empty string when the
    request raises (a transport error or a timeout among others), when the
    status is a client or server error (400 to 599), when the body is no JSON
    text, when it is no JSON object, and when the object has no member
    [response]; when the status is no such error and the member [response]
    is a text, it is that text. *)
Theorem call_ollama_never_raises (prompt : string) (srv : server) (n : nat) :
  let rq := ollama_request prompt in
  let o := run (call_ollama prompt) srv n in
  requests o = [rq]
  /\ (exists value, result o = inl value)
  /\ (forall e, srv n rq = Raised e -> result o = inl (JStr ""))
  /\ (forall r, srv n rq = Replied r ->
                (400 <= status_code r < 600)%Z -> result o = inl (JStr ""))
  /\ (forall r, srv n rq = Replied r ->
                body r = None
                \/ (exists v, body r = Some v
                               /\ forall entries, v <> JDict entries)
                \/ (exists entries, body r = Some (JDict entries)
                                     /\ dict_get "response" entries = None) ->
                result o = inl (JStr ""))
  /\ (forall r entries text,
        srv n rq = Replied r ->
        ~ (400 <= status_code r < 600)%Z ->
        body r = Some (JDict entries) ->
        dict_get "response" entries = Some (JStr text) ->
        result o = inl (JStr text)).
Proof.
  intros rq o. subst o.
  destruct (run_call_ollama prompt srv n) as [Hres Hreq].
  fold rq in Hres, Hreq. rewrite Hres.
  split; [exact Hreq|]. split; [eauto|].
  split; [intros e ->; reflexivity|].
  split; [|split].
  - intros r -> Hst. unfold completion.
    replace ((400 <=? status_code r) && (status_code r <? 600))%Z with true;
      [reflexivity|].
    symmetry. apply andb_true_iff. split; [apply Z.leb_le | apply Z.ltb_lt]; lia.
  - intros r -> Hb. unfold completion.
    destruct ((400 <=? status_code r) && (status_code r <? 600))%Z;
      [reflexivity|].
    destruct Hb as [->|[(v & -> & Hv)|(entries & -> & ->)]];
      try reflexivity.
    destruct v; try reflexivity. now destruct (Hv entries).
  - intros r entries text -> Hst Hb Hg. unfold completion. rewrite Hb, Hg.
    destruct ((400 <=? status_code r) && (status_code r <? 600))%Z eqn:E;
      [|reflexivity].
    apply andb_true_iff in E as [E1 E2].
    apply Z.leb_le in E1. apply Z.ltb_lt in E2. lia.
Qed.

Lemma fallback_scores_keywords_witness :
  fallback_analyze "SHOCKING news" "the Secret they hide"
  = {| is_fake := true; confidence := 0.7 |}
  /\ fallback_analyze "Rates unchanged" "The bank kept its rate"
     = {| is_fake := false; confidence := 0.5 |}.
Proof.
  split.
  - apply (fallback_scores_keywords "SHOCKING news" "the Secret they hide").
    reflexivity.
  - apply (fallback_scores_keywords "Rates unchanged" "The bank kept its rate").
    reflexivity.
Defined.

(** ** The sample articles, run *)

Section SampleRuns.

Import Samples.

Example fallback_on_fake_sample :
  fallback_analyze fake_title fake_content
  = {| is_fake := true; confidence := 0.9 |}.
Proof. reflexivity. Qed.

Example fallback_on_real_sample :
  fallback_analyze real_title real_content
  = {| is_fake := false; confidence := 0.5 |}.
Proof. reflexivity. Qed.

Example analyze_when_service_is_down :
  let o := run (analyze fake_title fake_content) service_down 0 in
  result o = inl {| is_fake := true; confidence := 0.9 |}
  /\ List.length (requests o) = 1
  /\ printed o = [ConnectionError].
Proof. repeat split. Qed.

Example analyze_when_service_answers :
  let o :=
    run (analyze real_title real_content)
      (service_says "VERDICT: REAL
CONFIDENCE: 85%
REASON: Plain reporting, I am 85% confident.") 0 in
  result o = inl {| is_fake := false; confidence := 0.85 |}
  /\ printed o = [].
Proof. repeat split. Qed.

(** The reply shape the prompt asks for puts the percentage behind the word,
    where the regular expression does not look: the default applies. *)
Example confidence_line_alone :
  parse_response "VERDICT: FAKE
CONFIDENCE: 85%
REASON: Sensational wording."
  = {| is_fake := true; confidence := 0.75 |}.
Proof. reflexivity. Qed.

End SampleRuns.

(** * Further properties of the code *)

(** ** More facts about strings *)

Section MoreStringFacts.

Lemma append_assoc (a b c : string) : (a ++ b) ++ c = a ++ b ++ c.
Proof. induction a as [|x a IH]; simpl; [reflexivity | now rewrite IH]. Qed.

Lemma append_empty_r (a : string) : a ++ "" = a.
Proof. induction a as [|x a IH]; simpl; [reflexivity | now rewrite IH]. Qed.

Lemma length_append (a b : string) :
  String.length (a ++ b) = String.length a + String.length b.
Proof. induction a as [|x a IH]; simpl; [reflexivity | now rewrite IH]. Qed.

Lemma lower_char_idempotent (c : ascii) :
  lower_char (lower_char c) = lower_char c.
Proof.
  destruct c as [[] [] [] [] [] [] [] []]; vm_compute; reflexivity.
Qed.

Lemma lower_idempotent (s : string) : lower (lower s) = lower s.
Proof.
  induction s as [|c s IH]; simpl; [reflexivity|].
  now rewrite lower_char_idempotent, IH.
Qed.

Lemma lower_append (a b : string) : lower (a ++ b) = lower a ++ lower b.
Proof. induction a as [|c a IH]; simpl; [reflexivity | now rewrite IH]. Qed.

Lemma length_lower (s : string) : String.length (lower s) = String.length s.
Proof. induction s as [|c s IH]; simpl; [reflexivity | now rewrite IH]. Qed.

Lemma occurs_trans (a b s : string) : occurs a b -> occurs b s -> occurs a s.
Proof.
  intros (p1 & q1 & ->) (p2 & q2 & ->).
  exists (p2 ++ p1), (q1 ++ q2). now rewrite !append_assoc.
Qed.

Lemma occurs_append_l (k a b : string) : occurs k a -> occurs k (a ++ b).
Proof.
  intros (p & q & ->). exists p, (q ++ b). now rewrite !append_assoc.
Qed.

Lemma occurs_append_r (k a b : string) : occurs k b -> occurs k (a ++ b).
Proof.
  intros (p & q & ->). exists (a ++ p), q. now rewrite !append_assoc.
Qed.

(** A substring of a marker that is absent makes the marker absent. *)
Lemma contains_part_false (part marker s : string) :
  contains part marker = true ->
  contains part s = false -> contains marker s = false.
Proof.
  intros Hp Hs. apply contains_false_occurs. intros Hm.
  apply contains_false_occurs in Hs. apply Hs.
  apply occurs_trans with marker; [now apply contains_occurs | assumption].
Qed.

Lemma occurrences_nonneg (p s : string) : (0 <= occurrences p s)%Z.
Proof.
  induction s as [|c s IH]; rewrite occurrences_unfold;
    destruct (startswith p _); lia.
Qed.

Lemma occurrences_absent (p s : string) :
  contains p s = false -> occurrences p s = 0%Z.
Proof.
  induction s as [|c s IH]; rewrite contains_unfold, occurrences_unfold;
    intros H; apply orb_false_iff in H as [-> H]; [reflexivity|].
  now rewrite (IH H).
Qed.

Lemma occurrences_present (p s : string) :
  contains p s = true -> (1 <= occurrences p s)%Z.
Proof.
  induction s as [|c s IH]; rewrite contains_unfold, occurrences_unfold;
    intros H; apply orb_true_iff in H as [H|H].
  - rewrite H. lia.
  - discriminate.
  - rewrite H. pose proof (occurrences_nonneg p s). lia.
  - specialize (IH H). destruct (startswith p _); lia.
Qed.

End MoreStringFacts.

(** ** [parse_response]: what the tokens alone decide *)

(** X1: a response that has none of the tokens fake, misinformation and false
    in it, in any case, is never classified as fake. *)
Theorem no_fake_token_is_real (response : string) :
  ~ contains_ci "fake" response ->
  ~ contains_ci "misinformation" response ->
  ~ contains_ci "false" response ->
  is_fake (parse_response response) = false.
Proof.
  intros Hfake Hmis Hfalse.
  apply contains_ci_false in Hfake, Hmis, Hfalse.
  unfold parse_response. cbn [is_fake].
  rewrite (contains_part_false "fake" "verdict: fake" _ eq_refl Hfake).
  rewrite (contains_part_false "fake" "classification: fake" _ eq_refl Hfake).
  rewrite (contains_part_false "fake" "this is fake" _ eq_refl Hfake).
  rewrite (contains_part_false "fake" "appears to be fake" _ eq_refl Hfake).
  cbn [orb].
  repeat match goal with
         | |- (if ?b then _ else _) = _ => destruct b; [reflexivity|]
         end.
  rewrite !count_occurrences by (reflexivity || discriminate).
  rewrite (occurrences_absent _ _ Hfake), (occurrences_absent _ _ Hmis),
    (occurrences_absent _ _ Hfalse).
  apply Z.ltb_ge.
  pose proof (occurrences_nonneg "real" (lower response)).
  pose proof (occurrences_nonneg "legitimate" (lower response)).
  pose proof (occurrences_nonneg "credible" (lower response)).
  lia.
Qed.

Lemma no_fake_token_is_real_witness :
  is_fake (parse_response "Fabricated. A hoax, 95% certain. Not credible.")
  = false.
Proof.
  apply no_fake_token_is_real;
    intros H; apply contains_occurs in H; vm_compute in H; discriminate.
Defined.

(** X2: a response that has one of the tokens fake, misinformation and false
    in it and none of real, legitimate and credible, in any case, is
    classified as fake. *)
Theorem fake_token_alone_is_fake (response : string) :
  contains_ci "fake" response
  \/ contains_ci "misinformation" response
  \/ contains_ci "false" response ->
  ~ contains_ci "real" response ->
  ~ contains_ci "legitimate" response ->
  ~ contains_ci "credible" response ->
  is_fake (parse_response response) = true.
Proof.
  intros Htoken Hreal Hleg Hcred.
  apply contains_ci_false in Hreal, Hleg, Hcred.
  unfold parse_response. cbn [is_fake].
  rewrite (contains_part_false "real" "verdict: real" _ eq_refl Hreal).
  rewrite (contains_part_false "real" "classification: real" _ eq_refl Hreal).
  rewrite (contains_part_false "real" "this is real" _ eq_refl Hreal).
  rewrite (contains_part_false "real" "appears to be real" _ eq_refl Hreal).
  rewrite Hleg. cbn [orb].
  repeat match goal with
         | |- (if ?b then _ else _) = _ => destruct b; [reflexivity|]
         end.
  rewrite !count_occurrences by (reflexivity || discriminate).
  rewrite (occurrences_absent _ _ Hreal), (occurrences_absent _ _ Hleg),
    (occurrences_absent _ _ Hcred).
  apply Z.ltb_lt.
  pose proof (occurrences_nonneg "fake" (lower response)).
  pose proof (occurrences_nonneg "misinformation" (lower response)).
  pose proof (occurrences_nonneg "false" (lower response)).
  destruct Htoken as [Ht|[Ht|Ht]];
    apply contains_ci_true, occurrences_present in Ht; lia.
Qed.

Lemma fake_token_alone_is_fake_witness :
  is_fake (parse_response "The article spreads MISINFORMATION about vaccines.")
  = true.
Proof.
  apply fake_token_alone_is_fake.
  - right; left. apply contains_occurs. vm_compute. reflexivity.
  - intros H; apply contains_occurs in H; vm_compute in H; discriminate.
  - intros H; apply contains_occurs in H; vm_compute in H; discriminate.
  - intros H; apply contains_occurs in H; vm_compute in H; discriminate.
Defined.

(** ** [parse_response]: the phrase cues and the letter case *)

Section CueFacts.

Lemma fake_cue_true (text : string) :
  fake_cue text ->
  contains "this is fake" (lower text)
  || contains "appears to be fake" (lower text) = true.
Proof.
  intros [H|H]; apply contains_ci_true in H; rewrite H;
    auto using orb_true_r.
Qed.

Lemma real_cue_true (text : string) :
  real_cue text ->
  contains "this is real" (lower text)
  || contains "appears to be real" (lower text)
  || contains "legitimate" (lower text) = true.
Proof.
  intros [H|[H|H]]; apply contains_ci_true in H; rewrite H;
    rewrite ?orb_true_r; reflexivity.
Qed.

End CueFacts.

(** X3: without explicit marker, a fake phrase cue gives [is_fake = true],
    also when a real cue is in the text as well; a real cue with no fake cue
    gives [is_fake = false], whatever the token counts are. *)
Theorem phrase_cue_decides (text : string) :
  ~ explicit_fake text -> ~ explicit_real text ->
  (fake_cue text -> is_fake (parse_response text) = true)
  /\ (~ fake_cue text -> real_cue text ->
      is_fake (parse_response text) = false).
Proof.
  intros Hf Hr. unfold parse_response. cbn [is_fake].
  rewrite (explicit_fake_false _ Hf), (explicit_real_false _ Hr).
  split.
  - intros Hc. now rewrite (fake_cue_true _ Hc).
  - intros Hc Hrc. now rewrite (fake_cue_false _ Hc), (real_cue_true _ Hrc).
Qed.

Lemma phrase_cue_decides_witness :
  is_fake (parse_response "This is FAKE, though it looks legitimate.") = true
  /\ is_fake (parse_response "Fake? False? No: it appears to be real.")
     = false.
Proof.
  split.
  - apply (phrase_cue_decides "This is FAKE, though it looks legitimate.").
    + intros [H|H]; apply contains_occurs in H; vm_compute in H; discriminate.
    + intros [H|H]; apply contains_occurs in H; vm_compute in H; discriminate.
    + left. apply contains_occurs. vm_compute. reflexivity.
  - apply (phrase_cue_decides "Fake? False? No: it appears to be real.").
    + intros [H|H]; apply contains_occurs in H; vm_compute in H; discriminate.
    + intros [H|H]; apply contains_occurs in H; vm_compute in H; discriminate.
    + intros [H|H]; apply contains_occurs in H; vm_compute in H; discriminate.
    + right; left. apply contains_occurs. vm_compute. reflexivity.
Defined.

(** X4: the verdict does not depend on the letter case of the response:
    lower-casing the response first changes neither [is_fake] nor the
    confidence. *)
Theorem parse_response_ignores_case (response : string) :
  parse_response (lower response) = parse_response response.
Proof.
  unfold parse_response. cbv zeta. now rewrite lower_idempotent.
Qed.

(** ** [fallback_analyze]: title and content, case, growth *)

Section FallbackParts.

Lemma startswith_before_space (k a b : string) :
  space_free k = true ->
  startswith k (a ++ String " " b) = true -> startswith k a = true.
Proof.
  revert k; induction a as [|c a IH]; intros [|x k] Hk H; simpl in *;
    try reflexivity.
  - apply andb_true_iff in Hk as [Hx _].
    apply andb_true_iff in H as [Hsp _].
    rewrite Hsp in Hx. discriminate.
  - apply andb_true_iff in Hk as [_ Hk].
    apply andb_true_iff in H as [-> H]. now apply IH.
Qed.

Lemma contains_around_space (k a b : string) :
  space_free k = true ->
  contains k (a ++ " " ++ b) = contains k a || contains k b.
Proof.
  intros Hk.
  destruct (contains k a || contains k b) eqn:E.
  - apply contains_occurs. apply orb_true_iff in E as [E|E];
      apply contains_occurs in E.
    + now apply occurs_append_l.
    + apply occurs_append_r. now apply (occurs_append_r k " " b).
  - apply orb_false_iff in E as [Ea Eb].
    induction a as [|c a IH].
    + change ("" ++ " " ++ b) with (String " " b). rewrite contains_unfold.
      rewrite Eb, orb_false_r.
      destruct (startswith k (String " " b)) eqn:S; [|reflexivity].
      apply (startswith_before_space k "" b Hk) in S.
      rewrite contains_unfold, S in Ea. discriminate.
    + rewrite contains_unfold in Ea. apply orb_false_iff in Ea as [Sa Ea].
      change (String c a ++ " " ++ b) with (String c (a ++ " " ++ b)).
      rewrite contains_unfold. rewrite (IH Ea), orb_false_r.
      destruct (startswith k (String c (a ++ " " ++ b))) eqn:S;
        [|reflexivity].
      apply (startswith_before_space k (String c a) b Hk) in S. congruence.
Qed.

Lemma fake_keywords_space_free :
  forallb space_free fake_keywords = true.
Proof. reflexivity. Qed.

Lemma filter_ext_in_string (f g : string -> bool) (l : list string) :
  (forall k, In k l -> f k = g k) -> filter f l = filter g l.
Proof.
  induction l as [|x l IH]; intros H; [reflexivity|]. simpl.
  rewrite (H x) by (now left). rewrite IH; [reflexivity|].
  intros k Hk. apply H. now right.
Qed.

(** The keywords found in the scored text are those found in the title or
    in the content. *)
Lemma hits_by_parts (title content : string) :
  hits fake_keywords (lower (title ++ " " ++ content))
  = filter (fun k => contains k (lower title) || contains k (lower content))
      fake_keywords.
Proof.
  unfold hits. apply filter_ext_in_string. intros k Hk.
  rewrite !lower_append. change (lower " ") with " ".
  apply contains_around_space.
  pose proof fake_keywords_space_free as H.
  rewrite forallb_forall in H. now apply H.
Qed.

Lemma filter_length_mono (f g : string -> bool) (l : list string) :
  (forall k, In k l -> f k = true -> g k = true) ->
  List.length (filter f l) <= List.length (filter g l).
Proof.
  induction l as [|x l IH]; intros H; [reflexivity|]. simpl.
  assert (List.length (filter f l) <= List.length (filter g l)) as Hl
    by (apply IH; intros k Hk; apply H; now right).
  destruct (f x) eqn:Fx.
  - rewrite (H x (or_introl eq_refl) Fx). simpl. lia.
  - destruct (g x); simpl; lia.
Qed.

End FallbackParts.

(** X5: the fallback counts a keyword exactly when it occurs in the title or
    in the content, in any case: the space put between the two neither makes
    nor breaks a keyword. *)
Theorem fallback_scores_title_and_content (title content : string) :
  fallback_analyze title content
  = let score :=
      Z.of_nat
        (List.length
           (filter
              (fun k =>
                 contains k (lower title) || contains k (lower content))
              fake_keywords)) in
    {| is_fake := (2 <=? score)%Z;
       confidence :=
         PyFloat.min (0.5 + PyFloat.of_int score * 0.1)%float 0.9 |}.
Proof.
  rewrite fallback_by_score. cbv zeta. now rewrite hits_by_parts.
Qed.

(** X6: the fallback verdict is the same when title and content change
    places. *)
Theorem fallback_symmetric (title content : string) :
  fallback_analyze title content = fallback_analyze content title.
Proof.
  rewrite !fallback_by_score. cbv zeta. rewrite !hits_by_parts.
  rewrite (filter_ext_in_string
             (fun k => contains k (lower title) || contains k (lower content))
             (fun k => contains k (lower content) || contains k (lower title)));
    [reflexivity|].
  intros k _. apply orb_comm.
Qed.

(** X7: the fallback verdict does not depend on the letter case of title and
    content. *)
Theorem fallback_ignores_case (title content : string) :
  fallback_analyze (lower title) (lower content)
  = fallback_analyze title content.
Proof.
  unfold fallback_analyze. cbv zeta.
  rewrite !lower_append, !lower_idempotent. reflexivity.
Qed.

(** X8: the confidence of the fallback lies between 0.5 and 0.9, and the
    fallback says fake exactly when its confidence is at least 0.7. *)
Theorem fallback_fake_iff_confident (title content : string) :
  let v := fallback_analyze title content in
  PyFloat.between 0.5 0.9 (confidence v) = true
  /\ is_fake v = PrimFloat.leb 0.7 (confidence v).
Proof.
  cbv zeta. rewrite fallback_by_score. cbv zeta.
  pose proof (hits_at_most fake_keywords
                (lower (title ++ " " ++ content))) as H.
  change (List.length fake_keywords) with 5 in H.
  destruct (List.length
              (hits fake_keywords (lower (title ++ " " ++ content))))
    as [|[|[|[|[|[|n]]]]]]; try lia; split; reflexivity.
Qed.

(** X9: text added around the title and around the content never turns a
    fake verdict of the fallback into a real one and never lowers its
    confidence. *)
Theorem fallback_grows_with_text
        (title content before_t after_t before_c after_c : string) :
  let v := fallback_analyze title content in
  let v' := fallback_analyze (before_t ++ title ++ after_t)
              (before_c ++ content ++ after_c) in
  (is_fake v = true -> is_fake v' = true)
  /\ PrimFloat.leb (confidence v) (confidence v') = true.
Proof.
  cbv zeta. rewrite !fallback_by_score. cbv zeta. rewrite !hits_by_parts.
  cbn [is_fake confidence].
  assert (forall k a pre post,
             contains k (lower a) = true ->
             contains k (lower (pre ++ a ++ post)) = true) as Hin.
  { intros k a pre post H. apply contains_occurs.
    apply contains_occurs in H. rewrite !lower_append.
    apply occurs_append_r. now apply occurs_append_l. }
  pose proof
    (filter_length_mono
       (fun k => contains k (lower title) || contains k (lower content))
       (fun k =>
          contains k (lower (before_t ++ title ++ after_t))
          || contains k (lower (before_c ++ content ++ after_c)))
       fake_keywords) as Hmono.
  pose proof
    (filter_length_le
       (fun k =>
          contains k (lower (before_t ++ title ++ after_t))
          || contains k (lower (before_c ++ content ++ after_c)))
       fake_keywords) as Hmax.
  change (List.length fake_keywords) with 5 in Hmax.
  match type of Hmono with
  | _ -> ?n1 <= ?n2 =>
      assert (n1 <= n2) as Hle;
      [ apply Hmono; intros k _ Hk;
        apply orb_true_iff in Hk as [Hk|Hk]; apply orb_true_iff;
        [left | right]; now apply Hin
      | clear Hmono; generalize dependent n2; generalize dependent n1 ]
  end.
  intros n1 n2 Hmax Hle.
  destruct n1 as [|[|[|[|[|[|n1]]]]]]; try lia;
    destruct n2 as [|[|[|[|[|[|n2]]]]]]; try lia;
    split; (reflexivity || discriminate).
Qed.

(** ** [call_ollama] and [analyze]: what is printed *)

Section PrintFacts.

Lemma run_bind_printed {A B : Type} (p : prog A) (f : A -> prog B)
      (srv : server) :
  forall n,
    printed (run (bind p f) srv n)
    = (printed (run p srv n)
       ++ match result (run p srv n) with
          | inl a =>
              printed
                (run (f a) srv (n + List.length (requests (run p srv n))))
          | inr e => []
          end)%list.
Proof.
  induction p as [a|e|rq k IH|e k IH]; intros n;
    cbn [bind run result requests printed].
  - now rewrite Nat.add_0_r.
  - reflexivity.
  - rewrite IH. cbn [List.length]. now rewrite Nat.add_succ_r.
  - rewrite IH. reflexivity.
Qed.

Lemma printed_call_ollama (prompt : string) (srv : server) (n : nat) :
  printed (run (call_ollama prompt) srv n)
  = match failure (srv n (ollama_request prompt)) with
    | Some e => [e]
    | None => []
    end.
Proof.
  unfold call_ollama, requests_post.
  cbn [bind try_except run printed].
  destruct (srv n (ollama_request prompt)) as [e|[st b]];
    cbn [bind try_except run printed failure status_code body];
    [reflexivity|].
  unfold raise_for_status. cbn [status_code].
  destruct ((400 <=? st) && (st <? 600))%Z;
    cbn [bind try_except run printed]; [reflexivity|].
  unfold response_json. cbn [body].
  destruct b as [[| | | | | |entries]|];
    cbn [bind try_except run printed get_response]; try reflexivity.
  destruct (dict_get "response" entries);
    cbn [bind try_except run printed]; reflexivity.
Qed.

Lemma printed_analyze (title content : string) (srv : server) (n : nat) :
  printed (run (analyze title content) srv n)
  = printed (run (call_ollama (build_prompt title content)) srv n).
Proof.
  unfold analyze. cbv zeta. rewrite run_bind_printed.
  destruct (run_call_ollama (build_prompt title content) srv n) as [-> _].
  destruct (truthy _); cbn [negb run printed]; [|apply app_nil_r].
  destruct (completion _); cbn [parse_response_of bind run printed];
    apply app_nil_r.
Qed.

Lemma error_status (st : Z) :
  ((400 <=? st) && (st <? 600))%Z = true <-> (400 <= st < 600)%Z.
Proof. rewrite andb_true_iff, Z.leb_le, Z.ltb_lt. tauto. Qed.

Lemma no_error_status (st : Z) :
  ~ (400 <= st < 600)%Z -> ((400 <=? st) && (st <? 600))%Z = false.
Proof.
  intros H. destruct ((400 <=? st) && (st <? 600))%Z eqn:E; [|reflexivity].
  apply error_status in E. contradiction.
Qed.

End PrintFacts.

(** X10: [call_ollama] prints one error for each failure, the exception that
    ended the call: the one [requests.post] raised, [HTTPError] for a status
    from 400 to 599, [JSONDecodeError] for a body that is no JSON text,
    [AttributeError] for a JSON body that is no object.  When the body is a
    JSON object it prints nothing, with or without the member [response]. *)
Theorem call_ollama_reports_failures (prompt : string) (srv : server)
        (n : nat) :
  let rq := ollama_request prompt in
  let o := run (call_ollama prompt) srv n in
  (forall e, srv n rq = Raised e -> printed o = [e])
  /\ (forall r, srv n rq = Replied r ->
                (400 <= status_code r < 600)%Z ->
                printed o = [HTTPError (status_code r)])
  /\ (forall r, srv n rq = Replied r ->
                ~ (400 <= status_code r < 600)%Z ->
                body r = None -> printed o = [JSONDecodeError])
  /\ (forall r v, srv n rq = Replied r ->
                  ~ (400 <= status_code r < 600)%Z ->
                  body r = Some v -> (forall entries, v <> JDict entries) ->
                  printed o = [AttributeError])
  /\ (forall r entries, srv n rq = Replied r ->
                        ~ (400 <= status_code r < 600)%Z ->
                        body r = Some (JDict entries) -> printed o = []).
Proof.
  intros rq o. subst o. rewrite printed_call_ollama. fold rq.
  repeat split.
  - intros e ->. reflexivity.
  - intros r -> Hst. cbn [failure].
    now rewrite (proj2 (error_status _) Hst).
  - intros r -> Hst Hb. cbn [failure].
    now rewrite (no_error_status _ Hst), Hb.
  - intros r v -> Hst Hb Hv. cbn [failure].
    rewrite (no_error_status _ Hst), Hb.
    destruct v; try reflexivity. now destruct (Hv entries).
  - intros r entries -> Hst Hb. cbn [failure].
    now rewrite (no_error_status _ Hst), Hb.
Qed.

(** X11: when the service answers with a JSON object that has no member
    [response], or an empty one, [analyze] returns the verdict of the fallback
    and no error is printed: the caller cannot tell this reply from an
    article the model judged. *)
Theorem analyze_silent_fallback (title content : string) (srv : server)
        (n : nat) (r : response) (entries : list (string * json)) :
  srv n (ollama_request (build_prompt title content)) = Replied r ->
  ~ (400 <= status_code r < 600)%Z ->
  body r = Some (JDict entries) ->
  dict_get "response" entries = None
  \/ dict_get "response" entries = Some (JStr "") ->
  let o := run (analyze title content) srv n in
  result o = inl (fallback_analyze title content) /\ printed o = [].
Proof.
  intros Hrep Hst Hb Hg. cbv zeta.
  rewrite printed_analyze, printed_call_ollama.
  destruct (run_analyze title content srv n) as [-> _].
  rewrite Hrep. cbn [completion failure].
  rewrite (no_error_status _ Hst), Hb.
  destruct Hg as [-> | ->]; split; reflexivity.
Qed.

Lemma analyze_silent_fallback_witness :
  let srv : server :=
    fun _ _ =>
      Replied {| status_code := 200;
                 body := Some (JDict [("model", JStr "llama3.2")]) |} in
  let o := run (analyze "Shocking secret" "A miracle") srv 0 in
  result o = inl {| is_fake := true; confidence := 0.8 |} /\ printed o = [].
Proof.
  intros srv.
  apply (analyze_silent_fallback "Shocking secret" "A miracle" srv 0
           {| status_code := 200;
              body := Some (JDict [("model", JStr "llama3.2")]) |}
           [("model", JStr "llama3.2")]).
  - reflexivity.
  - cbn. lia.
  - reflexivity.
  - left. reflexivity.
Defined.

(** X12: when the call of the service fails (the request raises, the status
    is from 400 to 599, or the body is no JSON object), [analyze] returns the
    verdict of the fallback, prints that one error and has sent one request:
    nothing is tried again. *)
Theorem analyze_after_failure (title content : string) (srv : server)
        (n : nat) (e : exn) :
  failure (srv n (ollama_request (build_prompt title content))) = Some e ->
  let o := run (analyze title content) srv n in
  result o = inl (fallback_analyze title content)
  /\ printed o = [e]
  /\ requests o = [ollama_request (build_prompt title content)].
Proof.
  intros Hf. cbv zeta.
  rewrite printed_analyze, printed_call_ollama, Hf.
  destruct (run_analyze title content srv n) as [-> ->].
  split; [|split; reflexivity].
  destruct (srv n (ollama_request (build_prompt title content)))
    as [e'|[st b]]; cbn [completion failure status_code body] in *;
    [reflexivity|].
  destruct ((400 <=? st) && (st <? 600))%Z; [reflexivity|].
  destruct b as [[| | | | | |entries]|]; try discriminate; reflexivity.
Qed.

Lemma analyze_after_failure_witness :
  let srv : server :=
    fun _ _ => Replied {| status_code := 503; body := None |} in
  let o := run (analyze "Rates unchanged" "The bank kept its rate") srv 0 in
  result o = inl {| is_fake := false; confidence := 0.5 |}
  /\ printed o = [HTTPError 503]
  /\ requests o
     = [ollama_request
          (build_prompt "Rates unchanged" "The bank kept its rate")].
Proof.
  intros srv.
  apply (analyze_after_failure "Rates unchanged" "The bank kept its rate"
           srv 0 (HTTPError 503)).
  reflexivity.
Defined.

(** ** [parse_response]: the number in front of the word *)

Section NumberFacts.

Lemma first_match_search (t d : string) :
  first_match t d -> PyRe.search t = Some d.
Proof.
  intros H. destruct (PyRe.search t) as [d'|] eqn:E.
  - apply search_first_match in E. f_equal.
    now apply (first_match_unique t d d').
  - apply search_no_match in E. destruct H as (pre & Hm & _).
    now apply E in Hm.
Qed.

Lemma first_match_bounds (t d : string) :
  first_match t d -> (0 <= PyRe.int d < 1000)%Z.
Proof.
  intros (pre & (s & ws & _ & Hs) & _).
  destruct Hs as (pct & w & post & _ & Hlen & Hd & _).
  apply int_bounds; [assumption | lia].
Qed.

Lemma confidence_first_match (response d : string) :
  first_match (lower response) d ->
  confidence (parse_response response) = percent (PyRe.int d).
Proof.
  intros H. rewrite confidence_by_search.
  now rewrite (first_match_search _ _ H).
Qed.

Lemma in_table (f : nat -> bool) (start len : nat) (n : Z) :
  forallb f (seq start len) = true ->
  (Z.of_nat start <= n < Z.of_nat (start + len))%Z ->
  f (Z.to_nat n) = true.
Proof.
  intros T Hn. rewrite forallb_forall in T. apply T, in_seq. lia.
Qed.

Lemma cap_table_low :
  forallb (fun n => negb (PrimFloat.ltb 1 (true_div (Z.of_nat n) 100)))
    (seq 0 101) = true.
Proof. vm_compute. reflexivity. Qed.

Lemma cap_table_high :
  forallb (fun n => PrimFloat.ltb 1 (true_div (Z.of_nat n) 100))
    (seq 101 899) = true.
Proof. vm_compute. reflexivity. Qed.

Lemma percent_uncapped (n : Z) :
  (0 <= n <= 100)%Z -> percent n = true_div n 100.
Proof.
  intros Hn. unfold percent, PyFloat.min.
  pose proof (in_table _ 0 101 n cap_table_low) as T. cbv beta in T.
  rewrite Z2Nat.id in T by lia.
  destruct (PrimFloat.ltb 1 (true_div n 100)); [|reflexivity].
  discriminate T. lia.
Qed.

Lemma percent_capped (n : Z) :
  (100 <= n < 1000)%Z -> percent n = 1%float.
Proof.
  intros Hn. unfold percent, PyFloat.min.
  destruct (Z.eq_dec n 100) as [->|Hne]; [reflexivity|].
  pose proof (in_table _ 101 899 n cap_table_high) as T. cbv beta in T.
  rewrite Z2Nat.id in T by lia. rewrite T by lia. reflexivity.
Qed.

Lemma percent_order_table :
  forallb
    (fun n =>
       forallb
         (fun m => PrimFloat.leb (percent (Z.of_nat n)) (percent (Z.of_nat m)))
         (seq n (100 - n)))
    (seq 0 100) = true.
Proof. vm_compute. reflexivity. Qed.

Lemma percent_monotone (n m : Z) :
  (0 <= n <= m)%Z -> (m < 1000)%Z ->
  PrimFloat.leb (percent n) (percent m) = true.
Proof.
  intros Hn Hm. destruct (Z_lt_le_dec m 100) as [Hlow|Hhigh].
  - pose proof percent_order_table as T.
    rewrite forallb_forall in T.
    specialize (T (Z.to_nat n)). rewrite forallb_forall in T.
    specialize (T ltac:(apply in_seq; lia) (Z.to_nat m)).
    rewrite !Z2Nat.id in T by lia. apply T, in_seq. lia.
  - rewrite (percent_capped m) by lia.
    pose proof (percent_in_range n ltac:(lia)) as R.
    unfold PyFloat.between in R. now apply andb_true_iff in R as [_ R].
Qed.

End NumberFacts.

(** X13: when the shape of the regular expression occurs in the response, the
    number [n] of its leftmost occurrence is between 0 and 999; up to 100 the
    confidence is [n / 100], not capped, so that "0% confident" gives 0.0,
    and from 100 on it is 1.0. *)
Theorem confidence_of_number (response d : string) :
  first_match (lower response) d ->
  let n := PyRe.int d in
  let c := confidence (parse_response response) in
  (0 <= n < 1000)%Z
  /\ (n <= 100 -> c = true_div n 100)%Z
  /\ (100 <= n -> c = 1%float)%Z.
Proof.
  intros H n c. subst n c.
  pose proof (first_match_bounds _ _ H) as Hb.
  rewrite (confidence_first_match _ _ H).
  split; [exact Hb|]. split; intros Hn.
  - apply percent_uncapped. lia.
  - apply percent_capped. lia.
Qed.

(** X14: of two responses in which the shape occurs, the one with the larger
    number never gets the smaller confidence. *)
Theorem confidence_monotone (response1 response2 d1 d2 : string) :
  first_match (lower response1) d1 ->
  first_match (lower response2) d2 ->
  (PyRe.int d1 <= PyRe.int d2)%Z ->
  PrimFloat.leb (confidence (parse_response response1))
    (confidence (parse_response response2)) = true.
Proof.
  intros H1 H2 Hle.
  rewrite (confidence_first_match _ _ H1), (confidence_first_match _ _ H2).
  pose proof (first_match_bounds _ _ H1).
  pose proof (first_match_bounds _ _ H2).
  apply percent_monotone; lia.
Qed.

Lemma confidence_of_number_witness :
  confidence (parse_response "I am 0% confident") = true_div 0 100
  /\ confidence (parse_response "250% certain") = 1%float.
Proof.
  split.
  - apply (confidence_of_number "I am 0% confident" "0").
    + apply search_first_match. reflexivity.
    + vm_compute. discriminate.
  - apply (confidence_of_number "250% certain" "250").
    + apply search_first_match. reflexivity.
    + vm_compute. discriminate.
Defined.

Lemma confidence_monotone_witness :
  PrimFloat.leb (confidence (parse_response "about 40% confident"))
    (confidence (parse_response "85% certain it is real")) = true.
Proof.
  apply (confidence_monotone _ _ "40" "85").
  - apply search_first_match. reflexivity.
  - apply search_first_match. reflexivity.
  - vm_compute. discriminate.
Defined.

(** ** [parse_response]: a reply in the format the prompt asks for *)

Section FormatFacts.

Import PyRe.

Lemma digit_char (c : ascii) :
  is_digit c = true ->
  Ascii.eqb c "%" = false /\ is_space c = false
  /\ Ascii.eqb "c" c = false /\ lower_char c = c.
Proof.
  destruct c as [[] [] [] [] [] [] [] []]; intros H;
    try discriminate H; repeat split.
Qed.

Lemma is_digit_lower (c : ascii) : is_digit (lower_char c) = is_digit c.
Proof.
  destruct c as [[] [] [] [] [] [] [] []]; vm_compute; reflexivity.
Qed.

Lemma digit_free_lower (s : string) : digit_free (lower s) = digit_free s.
Proof.
  unfold digit_free. induction s as [|c s IH]; simpl; [reflexivity|].
  now rewrite is_digit_lower, IH.
Qed.

Lemma lower_digits (d : string) : all_chars is_digit d = true -> lower d = d.
Proof.
  induction d as [|c d IH]; simpl; intros H; [reflexivity|].
  apply andb_true_iff in H as [Hc Hd].
  destruct (digit_char c Hc) as (_ & _ & _ & ->). now rewrite (IH Hd).
Qed.

Lemma match_at_nondigit (c : ascii) (s : string) :
  is_digit c = false -> match_at (String c s) = None.
Proof.
  intros H. unfold match_at, match_digits. cbn [digits]. now rewrite H.
Qed.

Lemma search_skip (pre s : string) :
  digit_free pre = true -> search (pre ++ s) = search s.
Proof.
  unfold digit_free. induction pre as [|c pre IH]; intros H; [reflexivity|].
  simpl in H. apply andb_true_iff in H as [Hc Hpre].
  apply negb_true_iff in Hc.
  change (String c pre ++ s) with (String c (pre ++ s)).
  rewrite search_unfold, (match_at_nondigit _ _ Hc). cbn [orelse].
  now apply IH.
Qed.

Lemma search_digit_free (s : string) :
  digit_free s = true -> search s = None.
Proof.
  intros H. rewrite <- (append_empty_r s). now rewrite search_skip.
Qed.

Lemma tail_matches_digit (d z : string) (c : ascii) :
  is_digit c = true -> tail_matches d (String c z) = None.
Proof.
  intros H. destruct (digit_char c H) as (Hp & Hs & Hc & _).
  unfold tail_matches, opt_percent. rewrite Hp. cbn [spaces]. rewrite Hs.
  unfold keyword. cbn [startswith]. now rewrite Hc.
Qed.

(** What [digits] leaves of a run of digits is the text behind the run, or
    begins with a digit. *)
Lemma digits_of_run (r : string) :
  (forall j, digits (S j) r = None) ->
  forall k d dd rr,
    all_chars is_digit d = true ->
    digits k (d ++ r) = Some (dd, rr) ->
    rr = r \/ exists c z, rr = String c z /\ is_digit c = true.
Proof.
  intros Hr. induction k as [|k IH]; intros d dd rr Hd E.
  - simpl in E. injection E as <- <-.
    destruct d as [|c d]; [now left|]. right.
    simpl in Hd. apply andb_true_iff in Hd as [Hc _].
    now exists c, (d ++ r).
  - destruct d as [|c d].
    + simpl append in E. now rewrite Hr in E.
    + simpl in Hd. apply andb_true_iff in Hd as [Hc Hd].
      simpl in E. rewrite Hc in E.
      destruct (digits k (d ++ r)) as [[dd' rr']|] eqn:E'; [|discriminate].
      injection E as <- <-. now apply (IH d dd' rr').
Qed.

Lemma match_at_run (d r : string) :
  (forall j, digits (S j) r = None) ->
  (forall dd, tail_matches dd r = None) ->
  all_chars is_digit d = true ->
  match_at (d ++ r) = None.
Proof.
  intros Hr Ht Hd.
  assert (forall k, match_digits k (d ++ r) = None) as Hk.
  { intros k. unfold match_digits.
    destruct (digits k (d ++ r)) as [[dd rr]|] eqn:E; [|reflexivity].
    destruct (digits_of_run r Hr k d dd rr Hd E) as [->|(c & z & -> & Hc)];
      [apply Ht | now apply tail_matches_digit]. }
  unfold match_at. now rewrite !Hk.
Qed.

Lemma search_run (d r : string) :
  (forall j, digits (S j) r = None) ->
  (forall dd, tail_matches dd r = None) ->
  all_chars is_digit d = true ->
  search (d ++ r) = search r.
Proof.
  intros Hr Ht. induction d as [|c d IH]; intros Hd; [reflexivity|].
  rewrite search_unfold, (match_at_run _ _ Hr Ht Hd). cbn [orelse append].
  simpl in Hd. apply andb_true_iff in Hd as [_ Hd]. now apply IH.
Qed.

End FormatFacts.

(** X15: in a reply of the format the prompt asks for, the percentage of the
    CONFIDENCE line is not read: the regular expression wants the number in
    front of the word.  When nothing else in the reply has a digit, the shape
    occurs nowhere and the confidence is that of the phrase cues, 0.75 when
    there is none. *)
Theorem confidence_line_is_not_read (before d reason : string) :
  digit_free before = true ->
  all_chars PyRe.is_digit d = true ->
  digit_free reason = true ->
  let response :=
    before ++ "CONFIDENCE: " ++ d ++ "%
REASON: " ++ reason in
  no_match (lower response)
  /\ confidence (parse_response response) = cue_confidence (lower response).
Proof.
  intros Hb Hd Hr response.
  assert (PyRe.search (lower response) = None) as Hs.
  { subst response. rewrite !lower_append, (lower_digits _ Hd).
    rewrite <- append_assoc.
    rewrite search_skip
      by (rewrite <- lower_append, digit_free_lower;
          unfold digit_free; rewrite all_chars_app; fold (digit_free before);
          now rewrite Hb).
    rewrite search_run; [| reflexivity | reflexivity | assumption].
    apply search_digit_free. rewrite <- lower_append, digit_free_lower.
    unfold digit_free. rewrite all_chars_app. fold (digit_free reason).
    now rewrite Hr. }
  split; [now apply search_no_match|].
  now rewrite confidence_by_search, Hs.
Qed.

Lemma confidence_line_is_not_read_witness :
  confidence
    (parse_response
       "VERDICT: FAKE
CONFIDENCE: 95%
REASON: Sensational wording and no sources.")
  = 0.75%float.
Proof.
  apply (confidence_line_is_not_read "VERDICT: FAKE
" "95" "Sensational wording and no sources."); reflexivity.
Defined.

(** ** [analyze]: the size of the prompt *)

(** X16: the prompt is the title, at most 1500 characters of the content and
    447 characters of fixed text: its length is the length of the title plus
    447 plus the smaller of 1500 and the length of the content. *)
Theorem prompt_length (title content : string) :
  String.length (build_prompt title content)
  = String.length title + Nat.min 1500 (String.length content) + 447
  /\ String.length (build_prompt title content)
     <= String.length title + 1947.
Proof.
  assert (String.length (build_prompt title content)
          = String.length title + Nat.min 1500 (String.length content) + 447)
    as H.
  { unfold build_prompt. rewrite !length_append, length_take.
    change (String.length prompt_head) with 108.
    change (String.length prompt_middle) with 11.
    change (String.length prompt_tail) with 328. lia. }
  split; [exact H|]. rewrite H. lia.
Qed.

(** ** [fallback_analyze]: two keywords *)

(** X17: the fallback says fake exactly when two different keywords of its
    list occur, in any case, each in the title or in the content. *)
Theorem fallback_fake_iff_two_keywords (title content : string) :
  is_fake (fallback_analyze title content) = true
  <-> exists k1 k2,
      In k1 fake_keywords /\ In k2 fake_keywords /\ k1 <> k2
      /\ (contains_ci k1 title \/ contains_ci k1 content)
      /\ (contains_ci k2 title \/ contains_ci k2 content).
Proof.
  rewrite fallback_by_score. cbv zeta. cbn [is_fake].
  rewrite hits_by_parts.
  set (found := filter _ fake_keywords).
  assert (NoDup found) as Hnd by apply NoDup_filter, fake_keywords_NoDup.
  assert (forall k, In k found
                    <-> In k fake_keywords
                        /\ (contains_ci k title \/ contains_ci k content))
    as Hin.
  { intros k. unfold found. rewrite filter_In, orb_true_iff.
    unfold contains_ci. now rewrite !contains_occurs. }
  rewrite Z.leb_le. split.
  - intros Hlen. destruct found as [|k1 [|k2 l]]; simpl in Hlen; try lia.
    exists k1, k2.
    destruct (proj1 (Hin k1) (or_introl eq_refl)) as [I1 O1].
    destruct (proj1 (Hin k2) (or_intror (or_introl eq_refl))) as [I2 O2].
    repeat split; try assumption.
    intros ->. inversion Hnd as [|? ? Hnot _]. apply Hnot. now left.
  - intros (k1 & k2 & I1 & I2 & Hne & O1 & O2).
    assert (In k1 found) as F1 by (apply Hin; auto).
    assert (In k2 found) as F2 by (apply Hin; auto).
    destruct found as [|a [|b l]]; simpl in *; try lia; try contradiction.
    destruct F1 as [<-|[]], F2 as [<-|[]]. contradiction.
Qed.

(** ** [analyze]: short contents, and which number counts *)

Section EdgeFacts.

Import PyRe.

Lemma take_all (n : nat) (s : string) :
  String.length s <= n -> take n s = s.
Proof.
  revert s; induction n as [|n IH]; intros [|c s] H; simpl in *;
    try reflexivity; try lia.
  rewrite IH; [reflexivity | lia].
Qed.

Lemma search_head (s d ws : string) :
  head_shape s d ws -> search s = Some d.
Proof.
  intros H. rewrite search_unfold.
  now rewrite (head_shape_match_at _ _ _ H).
Qed.

(** [k] digits taken from a longer run of digits leave a digit in front. *)
Lemma digits_within_run (r : string) :
  forall k d,
    all_chars is_digit d = true -> k < String.length d ->
    exists dd c z,
      digits k (d ++ r) = Some (dd, String c z) /\ is_digit c = true.
Proof.
  induction k as [|k IH]; intros d Hd Hk.
  - destruct d as [|c d]; simpl in *; [lia|].
    apply andb_true_iff in Hd as [Hc _]. now exists "", c, (d ++ r).
  - destruct d as [|c d]; simpl in *; [lia|].
    apply andb_true_iff in Hd as [Hc Hd].
    destruct (IH d Hd ltac:(lia)) as (dd & c' & z & E & Hc').
    rewrite Hc, E. now exists (String c dd), c', z.
Qed.

Lemma match_at_long_run (d r : string) :
  all_chars is_digit d = true -> 3 < String.length d ->
  match_at (d ++ r) = None.
Proof.
  intros Hd Hlen.
  assert (forall k, k <= 3 -> match_digits k (d ++ r) = None) as Hk.
  { intros k Hk. unfold match_digits.
    destruct (digits_within_run r k d Hd ltac:(lia))
      as (dd & c & z & -> & Hc).
    now apply tail_matches_digit. }
  unfold match_at. now rewrite !Hk by lia.
Qed.

Lemma search_long_run (front d r : string) :
  all_chars is_digit front = true ->
  all_chars is_digit d = true -> String.length d = 3 ->
  search (front ++ d ++ r) = search (d ++ r).
Proof.
  intros Hf Hd Hlen. induction front as [|c front IH]; [reflexivity|].
  change (String c front ++ d ++ r) with (String c (front ++ d ++ r)).
  rewrite search_unfold.
  change (String c (front ++ d ++ r)) with (String c front ++ d ++ r).
  rewrite <- append_assoc.
  rewrite match_at_long_run;
    [| now rewrite all_chars_app, Hf, Hd
     | rewrite length_append, Hlen; simpl; lia ].
  cbn [orelse]. simpl in Hf. apply andb_true_iff in Hf as [_ Hf].
  now apply IH.
Qed.

End EdgeFacts.

(** X18: a content of at most 1500 characters reaches the prompt whole. *)
Theorem short_content_is_sent_whole (title content : string) :
  String.length content <= 1500 ->
  build_prompt title content
  = prompt_head ++ title ++ prompt_middle ++ content ++ prompt_tail.
Proof.
  intros H. unfold build_prompt. now rewrite take_all.
Qed.

Lemma short_content_is_sent_whole_witness :
  build_prompt "Rates unchanged" "The bank kept its rate"
  = prompt_head ++ "Rates unchanged" ++ prompt_middle
    ++ "The bank kept its rate" ++ prompt_tail.
Proof.
  apply short_content_is_sent_whole. simpl. lia.
Defined.

(** X19: when the first digits of the response are a number of one to three
    digits with "% confident" behind it, this number gives the confidence,
    whatever the response goes on to say. *)
Theorem first_number_counts (before d rest : string) :
  digit_free before = true ->
  all_chars PyRe.is_digit d = true ->
  1 <= String.length d <= 3 ->
  confidence (parse_response (before ++ d ++ "% confident" ++ rest))
  = percent (PyRe.int d).
Proof.
  intros Hb Hd Hlen. rewrite confidence_by_search.
  rewrite !lower_append, (lower_digits _ Hd).
  rewrite search_skip by now rewrite digit_free_lower.
  rewrite (search_head _ d " "); [reflexivity|].
  exists "%", "confident", (lower rest).
  repeat split; auto; lia.
Qed.

Lemma first_number_counts_witness :
  confidence
    (parse_response "Real. 70% confident, though 99% certain of nothing.")
  = percent 70.
Proof.
  apply (first_number_counts "Real. " "70"
           ", though 99% certain of nothing."); try reflexivity.
  simpl. lia.
Defined.

(** X20: of a number of more than three digits in front of "% confident"
    only the last three digits count: "1050% confident" is read as 050 and
    gives 0.5. *)
Theorem last_three_digits_count (before front d rest : string) :
  digit_free before = true ->
  all_chars PyRe.is_digit front = true ->
  all_chars PyRe.is_digit d = true ->
  String.length d = 3 ->
  confidence (parse_response (before ++ front ++ d ++ "% confident" ++ rest))
  = percent (PyRe.int d).
Proof.
  intros Hb Hf Hd Hlen. rewrite confidence_by_search.
  rewrite !lower_append, (lower_digits _ Hd), (lower_digits _ Hf).
  rewrite search_skip by now rewrite digit_free_lower.
  rewrite search_long_run by assumption.
  rewrite (search_head _ d " "); [reflexivity|].
  exists "%", "confident", (lower rest).
  repeat split; auto; lia.
Qed.

Lemma last_three_digits_count_witness :
  confidence (parse_response "I am 1050% confident") = 0.5%float.
Proof.
  apply (last_three_digits_count "I am " "1" "050" ""); reflexivity.
Defined.

(** ** [analyze]: when the client returns text *)

(** X21: when the value the client returns is a text, or any false value,
    [analyze] returns a verdict and raises nothing; [is_fake] is a boolean
    and the confidence is a float between 0.0 and 1.0. *)
Theorem analyze_returns_verdict_on_text
        (title content : string) (srv : server) (n : nat) (value : json) :
  result (run (call_ollama (build_prompt title content)) srv n) = inl value ->
  truthy value = false \/ (exists text, value = JStr text) ->
  exists v : verdict,
    result (run (analyze title content) srv n) = inl v
    /\ (is_fake v = true \/ is_fake v = false)
    /\ PyFloat.between 0 1 (confidence v) = true.
Proof.
  intros Hc Hv.
  destruct (run_call_ollama (build_prompt title content) srv n) as [C _].
  rewrite C in Hc. injection Hc as Hc.
  destruct (run_analyze title content srv n) as [-> _]. rewrite Hc.
  assert (forall v : verdict, is_fake v = true \/ is_fake v = false) as Hb
    by (intros v; destruct (is_fake v); auto).
  destruct (truthy value) eqn:T.
  - destruct Hv as [Hv|[text ->]]; [discriminate|].
    eexists. split; [reflexivity|]. split; [apply Hb|].
    apply parse_response_in_range.
  - eexists. split; [reflexivity|]. split; [apply Hb|].
    apply fallback_in_range.
Qed.

Lemma analyze_returns_verdict_on_text_witness :
  exists v : verdict,
    result
      (run (analyze Samples.fake_title Samples.fake_content)
         (Samples.service_says "Verdict: FAKE, 92% confident") 0)
    = inl v
    /\ (is_fake v = true \/ is_fake v = false)
    /\ PyFloat.between 0 1 (confidence v) = true.
Proof.
  apply (analyze_returns_verdict_on_text
           Samples.fake_title Samples.fake_content
           (Samples.service_says "Verdict: FAKE, 92% confident") 0
           (JStr "Verdict: FAKE, 92% confident")).
  - reflexivity.
  - right. now exists "Verdict: FAKE, 92% confident".
Defined.
